(** * Hourly performance generation of generate-ads-data, embedded in Rocq

    Embedded sources:
    - [services/performance.py]: [TimestampDataGenerator], [_hours_between],
      [generate_hourly_performance_raw], [_audience_mix];
    - [services/performance_ext.py]: [ExtendedPerformanceMetrics],
      [ExtendedPerformanceDataGenerator], [generate_hourly_performance_ext];
    - [services/performance_utils.py]: [safe_div],
      [get_campaign_and_flight], [generate_temporal_fields],
      [clear_existing_performance], [create_performance_row],
      [batch_insert_performance];
    - [models/orm.py]: the columns, NOT NULL columns and CHECK constraints
      of [CampaignPerformance] and [CampaignPerformanceExtended];
    - [db_utils.py]: [session_scope], which rolls the transaction back
      when the body raises;
    - CPython's [random.Random] (MT19937 with [init_by_array] seeding,
      [random], [getrandbits], [randint], [uniform]), which fixes the draws.

    Modelling conventions.
    - Python ints are [Z].  Python floats of the generators are modelled by
      exact rationals [Q]: [random()] returns a dyadic rational
      [(a * 2^26 + b) / 2^53] exactly as CPython builds it, and [uniform],
      products and clamps are then computed exactly (IEEE rounding of the
      intermediate doubles is not modelled).  The temporal factor uses
      [exp], [sin] and [cos] and is modelled over the reals [R].
    - A [datetime] (UTC, timezone aware) is a [Z] count of microseconds
      since 1970-01-01T00:00:00Z; a [date] is a [Z] count of days.
    - The database is a record of lists.  An exception raised inside
      [session_scope] is an error ([None]): the transaction is rolled back
      and the database is unchanged.  The errors modelled are
      [scalar_one_or_none] finding several rows, the SQLAlchemy
      constructor given a keyword that is not an attribute of the class
      ([TypeError]), and the flush of a row that leaves a NOT NULL column
      NULL or breaks a CHECK constraint or the unique
      [(campaign_id, hour_ts)] index ([IntegrityError]). *)

From Stdlib Require Import ZArith QArith Qround Qminmax List Bool Lia.
From Stdlib Require Import Reals Lra.
From Stdlib Require Lqa.
From Stdlib Require Import Sorted.
From Stdlib Require String.
Import ListNotations.

(* ================================================================= *)
(** ** CPython's Mersenne Twister ([Modules/_randommodule.c]) *)

Module MT.
Open Scope Z_scope.

Definition N : nat := 624.
Definition M : nat := 397.
Definition MATRIX_A : Z := 2567483615.   (* 0x9908b0df *)
Definition UPPER_MASK : Z := 2147483648. (* 0x80000000 *)
Definition LOWER_MASK : Z := 2147483647. (* 0x7fffffff *)
Definition MASK32 : Z := 4294967295.     (* 0xffffffff *)

(** The generator state: the 624 words [mt] and the position [mti]. *)
Record state := mkState { mt : list Z; mti : nat }.

Definition get (l : list Z) (i : nat) : Z := nth i l 0.

Fixpoint set (l : list Z) (i : nat) (v : Z) : list Z :=
  match l, i with
  | [], _ => []
  | _ :: t, O => v :: t
  | x :: t, S i' => x :: set t i' v
  end.

(** [init_genrand(s)]: [mt[0] = s], then
    [mt[i] = 1812433253 * (mt[i-1] ^ (mt[i-1] >> 30)) + i] modulo 2^32. *)
Fixpoint init_genrand_from (prev : Z) (i : nat) (fuel : nat) : list Z :=
  match fuel with
  | O => []
  | S f =>
      let v := Z.land (1812433253 * Z.lxor prev (Z.shiftr prev 30)
                       + Z.of_nat i) MASK32 in
      v :: init_genrand_from v (S i) f
  end.

Definition init_genrand (s : Z) : list Z :=
  let s0 := Z.land s MASK32 in s0 :: init_genrand_from s0 1 (N - 1).

(** First loop of [init_by_array]: [k = max(N, key_length)] steps. *)
Fixpoint iba_loop1 (l : list Z) (key : list Z) (i j : nat) (k : nat)
  : list Z * nat :=
  match k with
  | O => (l, i)
  | S k' =>
      let p := get l (i - 1) in
      let v := Z.land (Z.lxor (get l i) (Z.lxor p (Z.shiftr p 30) * 1664525)
                       + nth j key 0 + Z.of_nat j) MASK32 in
      let l1 := set l i v in
      let i1 := S i in
      let j1 := S j in
      let '(l2, i2) := if (N <=? i1)%nat then (set l1 0 (get l1 (N - 1)), 1%nat)
                       else (l1, i1) in
      let j2 := if (length key <=? j1)%nat then O else j1 in
      iba_loop1 l2 key i2 j2 k'
  end.

(** Second loop of [init_by_array]: [N - 1] steps. *)
Fixpoint iba_loop2 (l : list Z) (i : nat) (k : nat) : list Z :=
  match k with
  | O => l
  | S k' =>
      let p := get l (i - 1) in
      let v := Z.land (Z.lxor (get l i) (Z.lxor p (Z.shiftr p 30) * 1566083941)
                       - Z.of_nat i) MASK32 in
      let l1 := set l i v in
      let i1 := S i in
      let '(l2, i2) := if (N <=? i1)%nat then (set l1 0 (get l1 (N - 1)), 1%nat)
                       else (l1, i1) in
      iba_loop2 l2 i2 k'
  end.

Definition init_by_array (key : list Z) : state :=
  let l0 := init_genrand 19650218 in
  let '(l1, i1) := iba_loop1 l0 key 1 0 (Nat.max N (length key)) in
  let l2 := iba_loop2 l1 i1 (N - 1) in
  mkState (set l2 0 2147483648) N.

(** [random_seed] for an int argument: the 32-bit words of [abs(arg)],
    least significant first; [[0]] for [0]. *)
Fixpoint words_of (fuel : nat) (n : Z) : list Z :=
  match fuel with
  | O => []
  | S f => if n =? 0 then [] else Z.land n MASK32 :: words_of f (Z.shiftr n 32)
  end.

Definition seed_key (a : Z) : list Z :=
  let n := Z.abs a in
  if n =? 0 then [0] else words_of (Z.to_nat (Z.log2 n / 32 + 1)) n.

Definition seed_int (a : Z) : state := init_by_array (seed_key a).

(** The regeneration of the 624 words when [mti >= N]. *)
Definition mag01 (y : Z) : Z := if Z.testbit y 0 then MATRIX_A else 0.

Fixpoint twist_loop (l : list Z) (kk : nat) (fuel : nat) : list Z :=
  match fuel with
  | O => l
  | S f =>
      let y := Z.lor (Z.land (get l kk) UPPER_MASK)
                     (Z.land (get l ((kk + 1) mod N)) LOWER_MASK) in
      let v := Z.lxor (Z.lxor (get l ((kk + M) mod N)) (Z.shiftr y 1)) (mag01 y) in
      twist_loop (set l kk v) (S kk) f
  end.

Definition twist (l : list Z) : list Z := twist_loop l 0 N.

Definition temper (y0 : Z) : Z :=
  let y1 := Z.lxor y0 (Z.shiftr y0 11) in
  let y2 := Z.lxor y1 (Z.land (Z.shiftl y1 7) 2636928640) in
  let y3 := Z.lxor y2 (Z.land (Z.shiftl y2 15) 4022730752) in
  Z.lxor y3 (Z.shiftr y3 18).

Definition genrand_uint32 (st : state) : Z * state :=
  let '(l, i) := if (N <=? mti st)%nat then (twist (mt st), O)
                 else (mt st, mti st) in
  (temper (get l i), mkState l (S i)).

End MT.

(* ================================================================= *)
(** ** The draws of [random.Random], as a state monad over [MT.state] *)

Module PyRandom.
Open Scope Z_scope.

Definition RNG (A : Type) : Type := MT.state -> A * MT.state.

Definition ret {A} (a : A) : RNG A := fun st => (a, st).
Definition bind {A B} (m : RNG A) (k : A -> RNG B) : RNG B :=
  fun st => let '(a, st1) := m st in k a st1.

Notation "x <- m ;; k" := (bind m (fun x => k))
  (at level 61, m at next level, right associativity).

Definition genrand_uint32 : RNG Z := MT.genrand_uint32.

(** [Random.random()]: [(a*67108864.0+b)*(1.0/9007199254740992.0)] with
    [a = genrand_uint32()>>5] and [b = genrand_uint32()>>6]. *)
Definition random : RNG Q :=
  a <- genrand_uint32 ;;
  b <- genrand_uint32 ;;
  ret ((Z.shiftr a 5 * 67108864 + Z.shiftr b 6) # 9007199254740992)%Q.

(** [getrandbits(k)] for [0 < k <= 32]. *)
Definition getrandbits (k : Z) : RNG Z :=
  y <- genrand_uint32 ;; ret (Z.shiftr y (32 - k)).

Definition bit_length (n : Z) : Z := if n <=? 0 then 0 else Z.log2 n + 1.

(** [_randbelow_with_getrandbits(n)]: draw [k = n.bit_length()] bits until
    the value is below [n].  The rejection loop is bounded by [fuel]
    (each round succeeds with probability above 1/2). *)
Fixpoint randbelow_loop (fuel : nat) (n k : Z) : RNG Z :=
  r <- getrandbits k ;;
  match fuel with
  | O => ret r
  | S f => if r <? n then ret r else randbelow_loop f n k
  end.

Definition randbelow (n : Z) : RNG Z := randbelow_loop 1000 n (bit_length n).

(** [randint(a, b) = randrange(a, b+1) = a + _randbelow(b - a + 1)]. *)
Definition randint (a b : Z) : RNG Z :=
  r <- randbelow (b - a + 1) ;; ret (a + r).

(** [uniform(a, b) = a + (b - a) * random()]. *)
Definition uniform (a b : Q) : RNG Q :=
  r <- random ;; ret (a + (b - a) * r)%Q.

(** [Random(seed)]: an int seed goes through [init_by_array]; [None]
    seeds from [os.urandom] ([random_seed_urandom] reads [N] words),
    modelled by the [entropy] words. *)
Definition Random (seed : option Z) (entropy : list Z) : MT.state :=
  match seed with
  | Some a => MT.seed_int a
  | None => MT.init_by_array entropy
  end.

End PyRandom.

(* ================================================================= *)
(** ** Python numeric built-ins over [Q] *)

Module Py.
Open Scope Q_scope.

(** [int(x)] on a float: truncation toward zero. *)
Definition int (x : Q) : Z :=
  if Qle_bool 0 x then Qfloor x else (- Qfloor (- x))%Z.

(** [round(x)]: round half to even. *)
Definition round (x : Q) : Z :=
  let f := Qfloor x in
  let d := x - inject_Z f in
  if Qle_bool d (1 # 2) then
    if Qeq_bool d (1 # 2) then (if Z.even f then f else f + 1)%Z else f
  else (f + 1)%Z.

Definition fmax (a b : Q) : Q := if Qle_bool b a then a else b.
Definition fmin (a b : Q) : Q := if Qle_bool a b then a else b.

End Py.

(* ================================================================= *)
(** ** UTC datetimes *)

Module Time.
Open Scope Z_scope.

Definition USEC_PER_HOUR : Z := 3600000000.
Definition USEC_PER_DAY : Z := 86400000000.

(** [dt.hour], [dt.weekday()] (Monday = 0; 1970-01-01 was a Thursday). *)
Definition days (dt : Z) : Z := dt / USEC_PER_DAY.
Definition hour (dt : Z) : Z := (dt / USEC_PER_HOUR) mod 24.
Definition weekday (dt : Z) : Z := (days dt + 3) mod 7.

(** Proleptic Gregorian calendar: year of a day count, day count of a
    1st of January. *)
Definition days_from_civil (y m d : Z) : Z :=
  let y' := if m <=? 2 then y - 1 else y in
  let era := y' / 400 in
  let yoe := y' - era * 400 in
  let mp := if 2 <? m then m - 3 else m + 9 in
  let doy := (153 * mp + 2) / 5 + d - 1 in
  let doe := yoe * 365 + yoe / 4 - yoe / 100 + doy in
  era * 146097 + doe - 719468.

Definition year_of_days (n : Z) : Z :=
  let z := n + 719468 in
  let era := z / 146097 in
  let doe := z - era * 146097 in
  let yoe := (doe - doe / 1460 + doe / 36524 - doe / 146096) / 365 in
  let doy := doe - (365 * yoe + yoe / 4 - yoe / 100) in
  let mp := (5 * doy + 2) / 153 in
  let m := if mp <? 10 then mp + 3 else mp - 9 in
  yoe + era * 400 + (if m <=? 2 then 1 else 0).

(** [dt.timetuple().tm_yday], in [1..366]. *)
Definition yday (dt : Z) : Z :=
  let n := days dt in n - days_from_civil (year_of_days n) 1 1 + 1.

(** [datetime.combine(d, datetime.min.time(), tzinfo=utc)] and
    [datetime.combine(d, datetime.max.time(), tzinfo=utc)
       .replace(minute=0, second=0, microsecond=0)]. *)
Definition start_of_day (d : Z) : Z := d * USEC_PER_DAY.
Definition last_hour_of_day (d : Z) : Z := d * USEC_PER_DAY + 23 * USEC_PER_HOUR.

(** [_hours_between(start_dt, end_dt)]: [start_dt + k hours] while it is
    [<= end_dt]. *)
Definition hours_count (start_dt end_dt : Z) : nat :=
  if start_dt <=? end_dt then Z.to_nat ((end_dt - start_dt) / USEC_PER_HOUR + 1)
  else O.

Definition hours_between (start_dt end_dt : Z) : list Z :=
  map (fun k => start_dt + Z.of_nat k * USEC_PER_HOUR)
      (seq 0 (hours_count start_dt end_dt)).

End Time.

(* ================================================================= *)
(** ** [TimestampDataGenerator] (performance.py), over the reals *)

Module Temporal.
Open Scope R_scope.

Definition hourly_boost (dt : Z) : R :=
  let h := Time.hour dt in
  if ((9 <=? h) && (h <=? 17))%Z then
    let mu := 13 in
    let sigma := 2.5 in
    let x := (IZR h - mu) / sigma in
    let g := exp (-0.5 * x * x) in
    1 + 0.45 * g
  else 1.

Definition dow_factor (dt : Z) : R :=
  let wd := Time.weekday dt in
  if (wd =? 4)%Z then 0.97
  else if (wd =? 5)%Z then 0.88
  else if (wd =? 6)%Z then 0.92
  else 1.00.

(** [(b - a).total_seconds() / 3600.0], from microseconds. *)
Definition hours_diff (a b : Z) : R := IZR (b - a) / IZR Time.USEC_PER_HOUR.

Definition ramp_factor (start_dt current_dt end_dt : Z) : R :=
  let total_hours := Rmax 1 (hours_diff start_dt end_dt) in
  let t := Rmin 1 (Rmax 0 (hours_diff start_dt current_dt / total_hours)) in
  let x := (t - 0.5) * 6 in
  let s := 1 / (1 + exp (- x)) in
  let ramp := 0.85 + 0.30 * s in
  let weekly := 1 + 0.03 * sin (2 * PI * hours_diff start_dt current_dt / 168) in
  ramp * weekly.

Definition annual_factor (dt : Z) : R :=
  let yd := Time.yday dt in
  let x := 2 * PI * IZR (yd - 1) / 365 in
  (cos x + 1) / 10 + 0.8.

Definition calculate_temporal_factor (start_dt current_dt end_dt : Z) : R :=
  let hod_factor := hourly_boost current_dt in
  let dow := dow_factor current_dt in
  let ramp := ramp_factor start_dt current_dt end_dt in
  let annual := annual_factor current_dt in
  hod_factor * dow * ramp * annual.

End Temporal.

(* ================================================================= *)
(** ** [generate_hourly_performance_raw] (performance.py): one hour *)

Module Basic.
Import PyRandom.
Open Scope Q_scope.

(** The keyword arguments of the call
    [CampaignPerformance(campaign_id=..., hour_ts=..., **base_fields,
    **temporal_fields)] in [create_performance_row]: the [base_fields] of
    the loop body and the fields of [generate_temporal_fields].  The values
    of [audience_json] ([json.dumps(_audience_mix(rng, hour, impressions))],
    a function of [hour] that draws nothing from [rng]), [human_readable],
    [minute_of_hour] and [second_of_minute] are left out; their names are in
    [perf_kwarg_names]. *)
Record perf_kwargs := mkPerfKwargs {
  campaign_id : Z;
  hour_ts : Z;
  impressions : Z;
  clicks : Z;
  ctr : Q;
  completion_rate : Z;
  render_rate : Q;
  fill_rate : Q;
  response_rate : Q;
  video_skip_rate : Q;
  video_start : Z;
  frequency : Z;
  reach : Z;
  requests : Z;
  responses : Z;
  eligible_impressions : Z;
  auctions_won : Z;
  viewable_impressions : Z;
  audible_impressions : Z;
  video_q25 : Z;
  video_q50 : Z;
  video_q75 : Z;
  video_q100 : Z;
  skips : Z;
  qr_scans : Z;
  interactive_engagements : Z;
  spend : Z;
  error_count : Z;
  timeout_count : Z;
  hour_of_day : Z;
  day_of_week : Z;
  is_business_hour : Z
}.

(** The audibility multiplier of line 293:
    [1.05 if hour.hour >= 18 or hour.hour <= 22 else 0.95]. *)
Definition audible_mult (h : Z) : Q :=
  if ((18 <=? h) || (h <=? 22))%Z then 1.05 else 0.95.

(** The loop body of lines 224-317 for one [hour], given its [factor]. *)
Definition gen_hour (cid : Z) (hour : Z) (factor : Q) : RNG perf_kwargs :=
  base_impressions <- randint 1000 10000 ;;
  let impressions := Py.int (Py.fmax 1 (inject_Z base_impressions * factor)) in
  base_ctr <- uniform 0.001 0.02 ;;
  ctr_variance <- uniform 0.8 1.2 ;;
  let raw_ctr := Py.fmin 0.05 (Py.fmax 0.0001 (base_ctr * ctr_variance * factor)) in
  let clicks := Z.max 0 (Py.int (inject_Z impressions * raw_ctr)) in
  base_completion <- randint 70 98 ;;
  let completion_bump := Py.int (4 * Py.fmin 1 (Py.fmax 0 (factor - 1))) in
  let completion_count := Z.min 98 (base_completion + completion_bump) in
  base_render <- uniform 0.95 0.99 ;;
  let render_factor := Py.fmin 0.999 (Py.fmax 0.90 (base_render * factor)) in
  base_fill <- uniform 0.85 0.98 ;;
  let fill_factor := Py.fmin 0.999 (Py.fmax 0.80 (base_fill * factor)) in
  base_response <- uniform 0.01 0.05 ;;
  let response_factor := Py.fmin 0.10 (Py.fmax 0.001 (base_response * factor)) in
  base_skip <- uniform 0.10 0.40 ;;
  let skip_factor := Py.fmin 0.60 (Py.fmax 0.05 (base_skip * (2 - factor))) in
  base_start_rate <- uniform 0.80 0.95 ;;
  let start_factor := Py.fmin 0.99 (Py.fmax 0.70 (base_start_rate * factor)) in
  let video_start := Z.max 0 (Py.int (inject_Z impressions * start_factor)) in
  base_frequency <- randint 1 4 ;;
  let frequency := Z.max 1 (Z.min 5 (Py.round (inject_Z base_frequency *
                     (1 + 0.15 * Py.fmax 0 (factor - 1))))) in
  let reach := Z.max 1 (impressions / Z.max 1 frequency) in
  let imp := inject_Z impressions in
  let vs := inject_Z video_start in
  u_req <- uniform 1.1 1.8 ;;
  u_resp <- uniform 0.92 1.04 ;;
  u_elig <- uniform 0.85 0.99 ;;
  u_auct <- uniform 0.90 1.02 ;;
  u_view <- uniform 0.80 0.98 ;;
  u_aud <- uniform 0.35 0.80 ;;
  u_q25 <- uniform 0.70 0.95 ;;
  u_q50 <- uniform 0.55 0.90 ;;
  u_q75 <- uniform 0.40 0.80 ;;
  u_q100 <- uniform 0.25 0.70 ;;
  u_skip <- uniform 0.10 0.40 ;;
  u_qr <- uniform 0.0003 0.006 ;;
  u_int <- uniform 0.001 0.02 ;;
  cpm <- randint 1200 4500 ;;
  u_cpm <- uniform 0.9 1.1 ;;
  u_err <- uniform 0.0005 0.004 ;;
  u_to <- uniform 0.0005 0.003 ;;
  let h := Time.hour hour in
  let wd := Time.weekday hour in
  ret {|
    campaign_id := cid;
    hour_ts := hour;
    impressions := impressions;
    clicks := clicks;
    ctr := raw_ctr;
    completion_rate := completion_count;
    render_rate := render_factor;
    fill_rate := fill_factor;
    response_rate := response_factor;
    video_skip_rate := skip_factor;
    video_start := video_start;
    frequency := frequency;
    reach := reach;
    requests := Py.int (imp * u_req);
    responses := Py.int (imp * u_resp);
    eligible_impressions := Py.int (imp * u_elig);
    auctions_won := Py.int (imp * u_auct);
    viewable_impressions := Py.int (imp * Py.fmax 0.70 (Py.fmin 0.99 (u_view * factor)));
    audible_impressions := Py.int (imp * Py.fmax 0.20 (Py.fmin 0.95 (u_aud * audible_mult h)));
    video_q25 := Py.int (vs * Py.fmax 0.60 (Py.fmin 0.98 u_q25));
    video_q50 := Py.int (vs * Py.fmax 0.40 (Py.fmin 0.90 u_q50));
    video_q75 := Py.int (vs * Py.fmax 0.25 (Py.fmin 0.80 u_q75));
    video_q100 := Py.int (vs * Py.fmax 0.10 (Py.fmin 0.70 u_q100));
    skips := Py.int (vs * Py.fmax 0.05 (Py.fmin 0.60 (u_skip * (2 - Py.fmin 1.5 factor))));
    qr_scans := Py.int (imp * u_qr);
    interactive_engagements := Py.int (imp * u_int);
    spend := Py.int (inject_Z (Qfloor (imp * inject_Z cpm * u_cpm *
                       (0.95 + 0.1 * Py.fmin 1.5 factor) / 1000)));
    error_count := Py.int (imp * u_err);
    timeout_count := Py.int (imp * u_to);
    hour_of_day := h;
    day_of_week := wd;
    is_business_hour := if ((9 <=? h) && (h <=? 17) && (wd <? 5))%Z then 1%Z else 0%Z
  |}.

Import String.StringSyntax.
Local Open Scope string_scope.

(** The names of those keyword arguments, in the order of the call:
    [campaign_id], [hour_ts], the keys of [base_fields] (lines 273-306,
    then [audience_json] at line 310) and the keys of
    [generate_temporal_fields] (performance_utils.py). *)
Definition perf_kwarg_names : list String.string :=
  ["campaign_id"; "hour_ts";
   "impressions"; "clicks"; "ctr"; "completion_rate"; "render_rate"; "fill_rate";
   "response_rate"; "video_skip_rate"; "video_start"; "frequency"; "reach";
   "requests"; "responses"; "eligible_impressions"; "auctions_won";
   "viewable_impressions"; "audible_impressions"; "video_q25"; "video_q50";
   "video_q75"; "video_q100"; "skips"; "qr_scans"; "interactive_engagements";
   "spend"; "error_count"; "timeout_count"; "audience_json";
   "human_readable"; "hour_of_day"; "minute_of_hour"; "second_of_minute";
   "day_of_week"; "is_business_hour"].

End Basic.

(* ================================================================= *)
(** ** [performance_ext.py]: raw metrics, derived metrics, one hour *)

Module Ext.
Import PyRandom.
Open Scope Q_scope.

(** [BaseExtendedPerformanceMetrics] ([seed] and [factor] are kept as
    generation metadata). *)
Record metrics := mkMetrics {
  campaign_id : Z;
  hour_ts : Z;
  requests : Z;
  responses : Z;
  eligible_impressions : Z;
  auctions_won : Z;
  impressions : Z;
  viewable_impressions : Z;
  audible_impressions : Z;
  video_starts : Z;
  video_q25 : Z;
  video_q50 : Z;
  video_q75 : Z;
  video_q100 : Z;
  skips : Z;
  clicks : Z;
  qr_scans : Z;
  interactive_engagements : Z;
  reach : Z;
  frequency : Z;
  spend : Z;
  error_count : Z;
  timeout_count : Z;
  seed : option Z;
  factor : Q
}.

(** [safe_div] (performance_utils.py). *)
Definition safe_div (numerator denominator : Q) (default : Q) : Q :=
  if Qeq_bool denominator 0 then default else numerator / denominator.

(** Computed fields of [ExtendedPerformanceMetrics]. *)
Definition fill_rate (m : metrics) : Q :=
  if (requests m <=? 0)%Z then 0
  else inject_Z (eligible_impressions m) / inject_Z (requests m).

Definition ctr (m : metrics) : Q :=
  if (impressions m <=? 0)%Z then 0
  else inject_Z (clicks m) / inject_Z (impressions m).

Definition avg_watch_time_seconds (m : metrics) : Q :=
  if (video_starts m <=? 0)%Z then 0
  else
    let asset_seconds := 30 in
    let seg0 := Z.max 0 (video_starts m - video_q25 m) in
    let seg1 := Z.max 0 (video_q25 m - video_q50 m) in
    let seg2 := Z.max 0 (video_q50 m - video_q75 m) in
    let seg3 := Z.max 0 (video_q75 m - video_q100 m) in
    let seg4 := Z.max 0 (video_q100 m) in
    let m0 := asset_seconds * 0.125 in
    let m1 := asset_seconds * 0.375 in
    let m2 := asset_seconds * 0.625 in
    let m3 := asset_seconds * 0.875 in
    let m4 := asset_seconds * 1.00 in
    let total_watch := inject_Z seg0 * m0 + inject_Z seg1 * m1 + inject_Z seg2 * m2
                       + inject_Z seg3 * m3 + inject_Z seg4 * m4 in
    total_watch / inject_Z (video_starts m).

(** [ExtendedPerformanceDataGenerator._pos_int] and [_is_evening]. *)
Definition pos_int (value : Q) : Z := Z.max 0 (Py.int value).

Definition is_evening (dt : Z) : bool := ((18 <=? Time.hour dt) && (Time.hour dt <=? 22))%Z.

(** The audibility rate of lines 267-268. *)
Definition audibility_of (u : Q) (dt : Z) : Q :=
  Py.fmax 0.20 (Py.fmin 0.95 (u * (if is_evening dt then 1.05 else 0.95))).

(** [generate_raw_metrics] after its optional re-seeding (lines 255-342). *)
Definition draw_metrics (cid : Z) (hour : Z) (f : Q) (sd : option Z) : RNG metrics :=
  base_impressions <- randint 1000 10000 ;;
  let impressions := pos_int (inject_Z base_impressions * f) in
  u_req <- uniform 1.1 1.8 ;;
  let requests := pos_int (inject_Z impressions * u_req) in
  u_resp <- uniform 0.92 1.04 ;;
  let responses := pos_int (inject_Z requests * u_resp) in
  u_elig <- uniform 0.85 0.99 ;;
  let eligible := pos_int (inject_Z responses * u_elig) in
  u_auct <- uniform 0.90 1.02 ;;
  let auctions_won := pos_int (inject_Z eligible * u_auct) in
  u_view <- uniform 0.80 0.98 ;;
  let viewability := Py.fmax 0.70 (Py.fmin 0.99 (u_view * f)) in
  u_aud <- uniform 0.35 0.80 ;;
  let audibility := audibility_of u_aud hour in
  let viewable_impressions := pos_int (inject_Z impressions * viewability) in
  let audible_impressions := pos_int (inject_Z impressions * audibility) in
  u_start <- uniform 0.85 0.97 ;;
  let start_rate := Py.fmax 0.70 (Py.fmin 0.99 (u_start *
                      (if is_evening hour then 1.02 else 0.98))) in
  let video_starts := pos_int (inject_Z impressions * start_rate) in
  u25 <- uniform 0.70 0.95 ;;
  let q25_rate := Py.fmax 0.60 (Py.fmin 0.98 u25) in
  u50 <- uniform 0.55 0.90 ;;
  let q50_rate := Py.fmax 0.40 (Py.fmin q25_rate u50) in
  u75 <- uniform 0.40 0.80 ;;
  let q75_rate := Py.fmax 0.25 (Py.fmin q50_rate u75) in
  u100 <- uniform 0.25 0.70 ;;
  let q100_rate := Py.fmax 0.10 (Py.fmin q75_rate u100) in
  let vs := inject_Z video_starts in
  base_skip <- uniform 0.10 0.40 ;;
  let skip_rate := Py.fmax 0.05 (Py.fmin 0.60 (base_skip * (2 - Py.fmin 1.5 f))) in
  u_ctr1 <- uniform 0.001 0.02 ;;
  u_ctr2 <- uniform 0.8 1.2 ;;
  let ctr := Py.fmax 0.0001 (Py.fmin 0.05 (u_ctr1 * u_ctr2 * f)) in
  u_qr <- uniform 0.0003 0.006 ;;
  u_int <- uniform 0.001 0.02 ;;
  base_freq <- uniform 1.0 4.2 ;;
  let freq := Py.int (inject_Z (Py.round (Py.fmax 1.0 (Py.fmin 5.0
                (base_freq * (1 + 0.12 * Py.fmax 0 (f - 1))))))) in
  base_cpm <- randint 1200 4500 ;;
  u_cpm <- uniform 0.9 1.1 ;;
  let cpm := Py.int (inject_Z base_cpm * u_cpm * (0.95 + 0.1 * Py.fmin 1.5 f)) in
  u_err <- uniform 0.0005 0.004 ;;
  u_to <- uniform 0.0005 0.003 ;;
  ret {|
    campaign_id := cid;
    hour_ts := hour;
    requests := requests;
    responses := responses;
    eligible_impressions := eligible;
    auctions_won := auctions_won;
    impressions := impressions;
    viewable_impressions := viewable_impressions;
    audible_impressions := audible_impressions;
    video_starts := video_starts;
    video_q25 := pos_int (vs * q25_rate);
    video_q50 := pos_int (vs * q50_rate);
    video_q75 := pos_int (vs * q75_rate);
    video_q100 := pos_int (vs * q100_rate);
    skips := pos_int (vs * skip_rate);
    clicks := pos_int (inject_Z impressions * ctr);
    qr_scans := pos_int (inject_Z impressions * u_qr);
    interactive_engagements := pos_int (inject_Z impressions * u_int);
    reach := Z.max 1 (impressions / Z.max 1 freq);
    frequency := freq;
    spend := if (0 <? impressions)%Z then ((impressions * cpm) / 1000)%Z else 0%Z;
    error_count := pos_int (inject_Z requests * u_err);
    timeout_count := pos_int (inject_Z requests * u_to);
    seed := sd;
    factor := f
  |}.

(** [generate_raw_metrics(campaign_id, hour, factor, seed)]: the generator
    object's [self.rng] is replaced by [Random(seed)] when [seed] is not
    [None], then the draws above are made. *)
Definition generate_raw_metrics (cid : Z) (hour : Z) (f : Q) (sd : option Z)
  : RNG metrics :=
  fun rng =>
    let rng' := match sd with Some s => MT.seed_int s | None => rng end in
    draw_metrics cid hour f sd rng'.

End Ext.

(* ================================================================= *)
(** ** The ORM classes of the two performance tables (models/orm.py) *)

Module Orm.
Import String.StringSyntax.
Local Open Scope string_scope.

Definition has_attr (attrs : list String.string) (k : String.string) : bool :=
  existsb (String.eqb k) attrs.

(** SQLAlchemy's declarative constructor [cls( **kwargs)] sets each keyword
    as an attribute and raises [TypeError] for a keyword [k] with
    [not hasattr(cls, k)]. *)
Definition orm_init_ok (attrs kwargs : list String.string) : bool :=
  forallb (has_attr attrs) kwargs.

(** At [flush()], the INSERT of an object gives each column the value the
    object was given, else the column's [default], else NULL; NULL in a
    NOT NULL column raises [IntegrityError].  [not_null] lists the NOT NULL
    columns with no default, [kwargs] the attributes the object was given. *)
Definition not_null_ok (not_null kwargs : list String.string) : bool :=
  forallb (has_attr kwargs) not_null.

Module CampaignPerformance.
(** The mapped columns of [CampaignPerformance] (orm.py, lines 303-361).
    The class has no column and no other attribute named [ctr],
    [completion_rate], [render_rate], [fill_rate], [response_rate] or
    [video_skip_rate] (its ratio columns, lines 363-374, are commented
    out). *)
Definition columns : list String.string :=
  ["id"; "campaign_id"; "hour_ts"; "impressions"; "clicks"; "video_start";
   "frequency"; "reach"; "audience_json"; "requests"; "responses";
   "eligible_impressions"; "auctions_won"; "viewable_impressions";
   "audible_impressions"; "video_q25"; "video_q50"; "video_q75"; "video_q100";
   "skips"; "qr_scans"; "interactive_engagements"; "spend"; "error_count";
   "timeout_count"; "human_readable"; "hour_of_day"; "minute_of_hour";
   "second_of_minute"; "day_of_week"; "is_business_hour"; "daily_day_date";
   "weekly_start_day_date"; "monthly_start_day_date"].

(** Its [nullable=False] columns with no [default] (besides the
    autoincrement primary key [id]). *)
Definition not_null : list String.string :=
  ["campaign_id"; "hour_ts"; "impressions"; "frequency"; "reach";
   "human_readable"; "hour_of_day"; "minute_of_hour"; "second_of_minute";
   "day_of_week"; "is_business_hour"; "daily_day_date";
   "weekly_start_day_date"; "monthly_start_day_date"].

(** A [CampaignPerformance] object: its integer columns.  The text columns
    [audience_json] and [human_readable], [minute_of_hour] and
    [second_of_minute] (always [0] on an hour) and the date columns are
    left out. *)
Record row := mkRow {
  campaign_id : Z;
  hour_ts : Z;
  impressions : Z;
  clicks : Z;
  video_start : Z;
  frequency : Z;
  reach : Z;
  requests : Z;
  responses : Z;
  eligible_impressions : Z;
  auctions_won : Z;
  viewable_impressions : Z;
  audible_impressions : Z;
  video_q25 : Z;
  video_q50 : Z;
  video_q75 : Z;
  video_q100 : Z;
  skips : Z;
  qr_scans : Z;
  interactive_engagements : Z;
  spend : Z;
  error_count : Z;
  timeout_count : Z;
  hour_of_day : Z;
  day_of_week : Z;
  is_business_hour : Z
}.
End CampaignPerformance.

Module CampaignPerformanceExtended.
(** The mapped columns of [CampaignPerformanceExtended] (orm.py, lines
    512-668). *)
Definition columns : list String.string :=
  ["id"; "campaign_id"; "hour_ts"; "requests"; "responses";
   "eligible_impressions"; "auctions_won"; "impressions";
   "viewable_impressions"; "audible_impressions"; "video_starts"; "video_q25";
   "video_q50"; "video_q75"; "video_q100"; "skips"; "avg_watch_time_seconds";
   "clicks"; "qr_scans"; "interactive_engagements"; "reach"; "frequency";
   "spend"; "effective_cpm"; "error_count"; "timeout_count"; "comment";
   "human_readable"; "hour_of_day"; "minute_of_hour"; "second_of_minute";
   "day_of_week"; "is_business_hour"; "daily_day_date";
   "weekly_start_day_date"; "monthly_start_day_date"; "ctr_recalc";
   "viewability_rate"; "audibility_rate"; "video_start_rate";
   "video_completion_rate"; "video_skip_rate_ext"; "qr_scan_rate";
   "interactive_rate"; "auction_win_rate"; "error_rate"; "timeout_rate";
   "supply_funnel_efficiency"; "ctr"; "completion_rate"; "render_rate";
   "fill_rate"; "response_rate"; "video_skip_rate"].

(** Its [nullable=False] columns with no [default] (besides [id]). *)
Definition not_null : list String.string :=
  ["campaign_id"; "hour_ts"; "human_readable"; "hour_of_day";
   "minute_of_hour"; "second_of_minute"; "day_of_week"; "is_business_hour";
   "daily_day_date"; "weekly_start_day_date"; "monthly_start_day_date"].

(** The keyword arguments of [registry.CampaignPerformanceExtended(...)] in
    [generate_hourly_performance_ext] (performance_ext.py, lines 424-464). *)
Definition row_kwargs : list String.string :=
  ["campaign_id"; "hour_ts"; "requests"; "responses"; "eligible_impressions";
   "auctions_won"; "impressions"; "viewable_impressions";
   "audible_impressions"; "video_starts"; "video_q25"; "video_q50";
   "video_q75"; "video_q100"; "skips"; "clicks"; "qr_scans";
   "interactive_engagements"; "reach"; "frequency"; "spend"; "error_count";
   "timeout_count"; "avg_watch_time_seconds"; "human_readable";
   "hour_of_day"; "minute_of_hour"; "second_of_minute"; "day_of_week";
   "is_business_hour"].
End CampaignPerformanceExtended.

End Orm.

(* ================================================================= *)
(** ** Storage: tables keyed by [(campaign_id, hour_ts)] *)

Module Store.
Import Orm.
Open Scope Z_scope.

Section Table.
Variable Row : Type.
(** The unique index [(campaign_id, hour_ts)] of a performance table. *)
Variable key : Row -> Z * Z.
(** The table's CHECK constraints. *)
Variable row_ok : Row -> bool.
(** The table's NOT NULL columns with no default. *)
Variable not_null : list String.string.
(** The attributes a row object was constructed with. *)
Variable row_kwargs : Row -> list String.string.

Definition key_eqb (a b : Z * Z) : bool := (fst a =? fst b) && (snd a =? snd b).

Fixpoint keys_unique (l : list (Z * Z)) : bool :=
  match l with
  | [] => true
  | k :: t => forallb (fun k' => negb (key_eqb k k')) t && keys_unique t
  end.

(** [clear_existing_performance]:
    [DELETE FROM table WHERE campaign_id = :campaign_id]. *)
Definition clear_existing_performance (tbl : list Row) (cid : Z) : list Row :=
  filter (fun r => negb (fst (key r) =? cid)) tbl.

(** A new key clashes with none of the table's keys. *)
Definition fresh_key (tbl : list Row) (r : Row) : bool :=
  negb (existsb (key_eqb (key r)) (map key tbl)).

(** [batch_insert_performance]: [bulk_save_objects(rows)] then [flush()].
    The INSERT raises [IntegrityError] ([None]) when a row leaves a NOT NULL
    column without value, breaks a CHECK constraint, or repeats a key of
    the index (among the new rows or with a stored one).  An empty batch
    inserts nothing and succeeds. *)
Definition batch_insert_performance (tbl rows : list Row) : option (list Row) :=
  if forallb (fun r => not_null_ok not_null (row_kwargs r)) rows
     && forallb row_ok rows && keys_unique (map key rows)
     && forallb (fresh_key tbl) rows
  then Some (tbl ++ rows) else None.

(** The rows of one campaign. *)
Definition rows_of (cid : Z) (tbl : list Row) : list Row :=
  filter (fun r => fst (key r) =? cid) tbl.

(** All rows belong to campaign [cid]. *)
Definition keyed (cid : Z) (rows : list Row) : Prop :=
  Forall (fun r => fst (key r) = cid) rows.

End Table.

Arguments keyed {Row}.
Arguments clear_existing_performance {Row}.
Arguments batch_insert_performance {Row}.
Arguments fresh_key {Row}.
Arguments rows_of {Row}.

Record flight := mkFlight { fl_campaign_id : Z; start_date : Z; end_date : Z }.

Record db := mkDb {
  campaigns : list Z;
  flights : list flight;
  campaign_performance : list CampaignPerformance.row;
  campaign_performance_extended : list (Ext.metrics * Z)
}.

(** [get_campaign_and_flight]: [None] when [scalar_one_or_none] raises
    (several flights for the campaign), [Some None] for "not found". *)
Definition get_campaign_and_flight (d : db) (cid : Z) : option (option flight) :=
  if existsb (Z.eqb cid) (campaigns d) then
    match filter (fun f => fl_campaign_id f =? cid) (flights d) with
    | [] => Some None
    | [f] => Some (Some f)
    | _ => None
    end
  else Some None.

Definition perf_key (r : CampaignPerformance.row) : Z * Z :=
  (CampaignPerformance.campaign_id r, CampaignPerformance.hour_ts r).

(** CHECK constraints of [CampaignPerformance] (orm.py, lines 289-299). *)
Definition perf_checks (r : CampaignPerformance.row) : bool :=
  (0 <=? CampaignPerformance.impressions r) && (0 <=? CampaignPerformance.clicks r)
  && (0 <=? CampaignPerformance.video_start r)
  && (1 <=? CampaignPerformance.frequency r) && (0 <=? CampaignPerformance.reach r)
  && (CampaignPerformance.clicks r <=? CampaignPerformance.impressions r)
  && (CampaignPerformance.video_start r <=? CampaignPerformance.impressions r)
  && (CampaignPerformance.reach r <=? CampaignPerformance.impressions r).

(** Every [CampaignPerformance] object is built by [create_performance_row]
    from [Basic.perf_kwarg_names]; every [CampaignPerformanceExtended] object
    by the call of [generate_hourly_performance_ext]. *)
Definition perf_kwargs_of (_ : CampaignPerformance.row) : list String.string :=
  Basic.perf_kwarg_names.

Definition ext_kwargs_of (_ : Ext.metrics * Z) : list String.string :=
  CampaignPerformanceExtended.row_kwargs.

(** A row of [CampaignPerformanceExtended]: the generated metrics and the
    stored [avg_watch_time_seconds]; the temporal columns are functions of
    [hour_ts] and [effective_cpm] keeps its default [0]. *)
Definition ext_key (r : Ext.metrics * Z) : Z * Z :=
  (Ext.campaign_id (fst r), Ext.hour_ts (fst r)).

Definition Qle_z (a : Q) (b : Z) : bool := Qle_bool a (inject_Z b).

(** CHECK constraints of [CampaignPerformanceExtended] (orm.py). *)
Import Ext.
Definition ext_checks (r : Ext.metrics * Z) : bool :=
  let m := fst r in
  let w := snd r in
  (0 <=? requests m) && (0 <=? responses m) && (0 <=? eligible_impressions m)
  && (0 <=? auctions_won m) && (0 <=? impressions m)
  && (0 <=? viewable_impressions m) && (0 <=? audible_impressions m)
  && (0 <=? video_starts m) && (0 <=? video_q25 m) && (0 <=? video_q50 m)
  && (0 <=? video_q75 m) && (0 <=? video_q100 m) && (0 <=? skips m) && (0 <=? w)
  && (0 <=? clicks m) && (0 <=? qr_scans m) && (0 <=? interactive_engagements m)
  && (0 <=? reach m) && (0 <=? frequency m) && (0 <=? spend m)
  && (0 <=? error_count m) && (0 <=? timeout_count m)
  && Qle_z ((9 # 10) * inject_Z (requests m))%Q (responses m)
  && Qle_z ((8 # 10) * inject_Z (responses m))%Q (eligible_impressions m)
  && Qle_z ((8 # 10) * inject_Z (eligible_impressions m))%Q (auctions_won m)
  && Qle_z ((6 # 10) * inject_Z (auctions_won m))%Q (impressions m)
  && (viewable_impressions m <=? impressions m)
  && (audible_impressions m <=? impressions m)
  && (video_starts m <=? impressions m)
  && (video_q25 m <=? video_starts m) && (video_q50 m <=? video_q25 m)
  && (video_q75 m <=? video_q50 m) && (video_q100 m <=? video_q75 m)
  && (skips m <=? video_starts m) && (clicks m <=? impressions m)
  && (qr_scans m <=? impressions m) && (interactive_engagements m <=? impressions m)
  && (reach m <=? impressions m) && (1 <=? frequency m) && (w <=? 3600).

End Store.

(* ================================================================= *)
(** ** The hourly orchestrators *)

Module Orchestrator.
Import PyRandom Orm Store.
Open Scope Z_scope.

(** [create_performance_row(registry.CampaignPerformance, campaign_id, hour,
    base_fields)] (performance_utils.py, lines 41-70): the constructor
    [CampaignPerformance( **kwargs)] raises [TypeError] ([None]) unless
    every keyword names an attribute of the class. *)
Definition create_performance_row (kw : Basic.perf_kwargs) : option CampaignPerformance.row :=
  if orm_init_ok CampaignPerformance.columns Basic.perf_kwarg_names then
    Some {|
      CampaignPerformance.campaign_id := Basic.campaign_id kw;
      CampaignPerformance.hour_ts := Basic.hour_ts kw;
      CampaignPerformance.impressions := Basic.impressions kw;
      CampaignPerformance.clicks := Basic.clicks kw;
      CampaignPerformance.video_start := Basic.video_start kw;
      CampaignPerformance.frequency := Basic.frequency kw;
      CampaignPerformance.reach := Basic.reach kw;
      CampaignPerformance.requests := Basic.requests kw;
      CampaignPerformance.responses := Basic.responses kw;
      CampaignPerformance.eligible_impressions := Basic.eligible_impressions kw;
      CampaignPerformance.auctions_won := Basic.auctions_won kw;
      CampaignPerformance.viewable_impressions := Basic.viewable_impressions kw;
      CampaignPerformance.audible_impressions := Basic.audible_impressions kw;
      CampaignPerformance.video_q25 := Basic.video_q25 kw;
      CampaignPerformance.video_q50 := Basic.video_q50 kw;
      CampaignPerformance.video_q75 := Basic.video_q75 kw;
      CampaignPerformance.video_q100 := Basic.video_q100 kw;
      CampaignPerformance.skips := Basic.skips kw;
      CampaignPerformance.qr_scans := Basic.qr_scans kw;
      CampaignPerformance.interactive_engagements := Basic.interactive_engagements kw;
      CampaignPerformance.spend := Basic.spend kw;
      CampaignPerformance.error_count := Basic.error_count kw;
      CampaignPerformance.timeout_count := Basic.timeout_count kw;
      CampaignPerformance.hour_of_day := Basic.hour_of_day kw;
      CampaignPerformance.day_of_week := Basic.day_of_week kw;
      CampaignPerformance.is_business_hour := Basic.is_business_hour kw
    |}
  else None.

Section WithFactor.
(** [calculate_temporal_factor(start_dt, hour, end_dt)] as the orchestrators
    use it: a pure function of its three datetimes (its real-valued
    definition is [Temporal.calculate_temporal_factor]). *)
Variable temporal_factor : Z -> Z -> Z -> Q.

(** The loop of [generate_hourly_performance_raw] (lines 222-318): one
    stream, threaded from hour to hour.  [None] when
    [create_performance_row] raises, which ends the run. *)
Fixpoint raw_rows (cid start_dt end_dt : Z) (hours : list Z)
  : RNG (option (list CampaignPerformance.row)) :=
  match hours with
  | [] => ret (Some [])
  | hour :: rest =>
      base_fields <- Basic.gen_hour cid hour (temporal_factor start_dt hour end_dt) ;;
      match create_performance_row base_fields with
      | None => ret None
      | Some perf =>
          all_rows <- raw_rows cid start_dt end_dt rest ;;
          ret (option_map (cons perf) all_rows)
      end
  end.

(** [generate_hourly_performance_raw(campaign_id, seed, replace)]: the new
    database and the returned row count; [None] when an exception is
    raised ([session_scope] then rolls back, the database is unchanged). *)
Definition generate_hourly_performance_raw (cid : Z) (seed : option Z)
  (entropy : list Z) (replace : bool) (d : db) : option (db * Z) :=
  let rng := Random seed entropy in
  match get_campaign_and_flight d cid with
  | None => None
  | Some None => Some (d, 0)
  | Some (Some fl) =>
      let start_dt := Time.start_of_day (start_date fl) in
      let end_dt := Time.last_hour_of_day (end_date fl) in
      let tbl := if replace
                 then clear_existing_performance perf_key (campaign_performance d) cid
                 else campaign_performance d in
      match fst (raw_rows cid start_dt end_dt (Time.hours_between start_dt end_dt) rng) with
      | None => None
      | Some all_rows =>
          match batch_insert_performance perf_key perf_checks CampaignPerformance.not_null
                  perf_kwargs_of tbl all_rows with
          | None => None
          | Some tbl' =>
              Some (mkDb (campaigns d) (flights d) tbl' (campaign_performance_extended d),
                    Z.of_nat (length all_rows))
          end
      end
  end.

(** The loop of [generate_hourly_performance_ext] (lines 413-467): each hour
    calls [generator.generate_raw_metrics(campaign_id, hour, factor, seed)]
    on the generator's [rng], and builds the row object with
    [int(avg_watch_time_seconds)].  The keywords of that constructor call
    are all columns of the class ([CampaignPerformanceExtended.row_kwargs]),
    so it does not raise. *)
Fixpoint ext_rows (cid : Z) (seed : option Z) (start_dt end_dt : Z)
  (hours : list Z) : RNG (list (Ext.metrics * Z)) :=
  match hours with
  | [] => ret []
  | hour :: rest =>
      raw_metrics <- Ext.generate_raw_metrics cid hour
                       (temporal_factor start_dt hour end_dt) seed ;;
      all_rows <- ext_rows cid seed start_dt end_dt rest ;;
      ret ((raw_metrics, Py.int (Ext.avg_watch_time_seconds raw_metrics)) :: all_rows)
  end.

(** [generate_hourly_performance_ext(campaign_id, seed, replace)]; its
    closing [s.bulk_save_objects(all_rows); s.flush()] is the body of
    [batch_insert_performance]. *)
Definition generate_hourly_performance_ext (cid : Z) (seed : option Z)
  (entropy : list Z) (replace : bool) (d : db) : option (db * Z) :=
  let rng := Random seed entropy in
  match get_campaign_and_flight d cid with
  | None => None
  | Some None => Some (d, 0)
  | Some (Some fl) =>
      let tbl := if replace
                 then clear_existing_performance ext_key (campaign_performance_extended d) cid
                 else campaign_performance_extended d in
      let start_dt := Time.start_of_day (start_date fl) in
      let end_dt := Time.last_hour_of_day (end_date fl) in
      let all_rows := fst (ext_rows cid seed start_dt end_dt
                             (Time.hours_between start_dt end_dt) rng) in
      match batch_insert_performance ext_key ext_checks CampaignPerformanceExtended.not_null
              ext_kwargs_of tbl all_rows with
      | None => None
      | Some tbl' =>
          Some (mkDb (campaigns d) (flights d) (campaign_performance d) tbl',
                Z.of_nat (length all_rows))
      end
  end.

End WithFactor.
End Orchestrator.

(** Both orchestrators share one shape: look the flight up, optionally
    clear the campaign's rows, build the row objects of the flight's hours
    (which may raise) and insert them in one batch.  [regen] is that shape,
    generic in the table; [raw_as_regen] and [ext_as_regen] below show that
    the two orchestrators are its instances (both hold by [reflexivity]). *)

Module Regen.
Import Orm Store.
Open Scope Z_scope.

Definition regen {Row : Type} (key : Row -> Z * Z) (checks : Row -> bool)
  (not_null : list String.string) (kwargs_of : Row -> list String.string)
  (tbl_of : db -> list Row) (set_tbl : db -> list Row -> db)
  (rows_for : flight -> option (list Row)) (cid : Z) (replace : bool) (d : db)
  : option (db * Z) :=
  match get_campaign_and_flight d cid with
  | None => None
  | Some None => Some (d, 0)
  | Some (Some fl) =>
      let tbl := if replace then clear_existing_performance key (tbl_of d) cid else tbl_of d in
      match rows_for fl with
      | None => None
      | Some all_rows =>
          match batch_insert_performance key checks not_null kwargs_of tbl all_rows with
          | None => None
          | Some tbl' => Some (set_tbl d tbl', Z.of_nat (length all_rows))
          end
      end
  end.

(** The row objects built for a flight by each orchestrator. *)
Definition raw_rows_for (tf : Z -> Z -> Z -> Q) (cid : Z) (seed : option Z)
  (entropy : list Z) (fl : flight) : option (list CampaignPerformance.row) :=
  let start_dt := Time.start_of_day (start_date fl) in
  let end_dt := Time.last_hour_of_day (end_date fl) in
  fst (Orchestrator.raw_rows tf cid start_dt end_dt (Time.hours_between start_dt end_dt)
         (PyRandom.Random seed entropy)).

Definition ext_rows_for (tf : Z -> Z -> Z -> Q) (cid : Z) (seed : option Z)
  (entropy : list Z) (fl : flight) : list (Ext.metrics * Z) :=
  let start_dt := Time.start_of_day (start_date fl) in
  let end_dt := Time.last_hour_of_day (end_date fl) in
  fst (Orchestrator.ext_rows tf cid seed start_dt end_dt (Time.hours_between start_dt end_dt)
         (PyRandom.Random seed entropy)).

Definition set_perf (d : db) (t : list CampaignPerformance.row) : db :=
  mkDb (campaigns d) (flights d) t (campaign_performance_extended d).

Definition set_ext (d : db) (t : list (Ext.metrics * Z)) : db :=
  mkDb (campaigns d) (flights d) (campaign_performance d) t.

(** Two results of a run agree: both raise, or both return the same count
    and leave the same rows for the campaign. *)
Definition same_output {Row : Type} (key : Row -> Z * Z) (tbl_of : db -> list Row)
  (cid : Z) (o1 o2 : option (db * Z)) : Prop :=
  match o1, o2 with
  | Some (d1, n1), Some (d2, n2) =>
      n1 = n2 /\ rows_of key cid (tbl_of d1) = rows_of key cid (tbl_of d2)
  | None, None => True
  | _, _ => False
  end.

End Regen.

(** Predicates and concrete inputs used by the properties. *)

Module Fixtures.
Import Store PyRandom.
Open Scope Z_scope.

(** A metrics record with no traffic at all. *)
Definition sample_metrics : Ext.metrics :=
  Ext.mkMetrics 1 0 0 0 0 0 0 0 0 0 0 0 0 0 0 0 0 0 1 1 0 0 0 None 1%Q.

(** Funnel monotonicity of the video quartiles of a row. *)
Definition ext_quartiles_monotone (m : Ext.metrics) : Prop :=
  (Ext.video_q50 m <= Ext.video_q25 m /\ Ext.video_q75 m <= Ext.video_q50 m /\
   Ext.video_q100 m <= Ext.video_q75 m /\ 0 <= Ext.video_q100 m)%Z.

(** 2024-01-01, as days since 1970-01-01, and the one-day flight on it. *)
Definition jan_1_2024 : Z := 19723.
Definition flight_start : Z := Time.start_of_day jan_1_2024.
Definition flight_end : Z := Time.last_hour_of_day jan_1_2024.
Definition one_day_flight : flight := mkFlight 1 jan_1_2024 jan_1_2024.

(** A database with campaign 1, its one-day flight and empty tables. *)
Definition one_day_db : db := mkDb [1] [one_day_flight] [] [].

(** A constant temporal factor. *)
Definition unit_factor : Z -> Z -> Z -> Q := fun _ _ _ => 1%Q.

(** The draws of a generator body up to a given one, returning that one:
    they name the value a [uniform] call of the body returns. *)
Definition ext_auction_draw : RNG Q :=
  _b <- randint 1000 10000 ;; _req <- uniform 1.1 1.8 ;; _resp <- uniform 0.92 1.04 ;;
  _elig <- uniform 0.85 0.99 ;; uniform 0.90 1.02.

Definition ext_audibility_draw : RNG Q :=
  _auct <- ext_auction_draw ;; _view <- uniform 0.80 0.98 ;; uniform 0.35 0.80.

(** A database with no campaign, and one whose campaign 1 has two flights. *)
Definition empty_db : db := mkDb [] [] [] [].
Definition two_flight_db : db := mkDb [1] [one_day_flight; one_day_flight] [] [].

End Fixtures.

(** Invariant of the generator state and Hoare triples over [RNG]. *)

Module RngInv.
Import PyRandom.

(** Every word of the Mersenne Twister state is a 32-bit unsigned value. *)
Definition word_ok (w : Z) : Prop := (0 <= w < 2 ^ 32)%Z.
Definition words_ok (st : MT.state) : Prop := Forall word_ok (MT.mt st).

(** [triple m P]: from a well-formed state, [m] returns a value satisfying
    [P] and leaves a well-formed state. *)
Definition triple {A} (m : RNG A) (P : A -> Prop) : Prop :=
  forall st, words_ok st -> P (fst (m st)) /\ words_ok (snd (m st)).

End RngInv.

(** ** Computed fields and Field constraints of [ExtendedPerformanceMetrics] *)

Module ExtFields.
Import Ext.
Open Scope Q_scope.

Definition viewability_rate (m : metrics) : Q :=
  if (impressions m <=? 0)%Z then 0
  else inject_Z (viewable_impressions m) / inject_Z (impressions m).

Definition audibility_rate (m : metrics) : Q :=
  if (impressions m <=? 0)%Z then 0
  else inject_Z (audible_impressions m) / inject_Z (impressions m).

Definition video_start_rate (m : metrics) : Q :=
  if (impressions m <=? 0)%Z then 0
  else inject_Z (video_starts m) / inject_Z (impressions m).

Definition video_completion_rate (m : metrics) : Q :=
  if (video_starts m <=? 0)%Z then 0
  else inject_Z (video_q100 m) / inject_Z (video_starts m).

Definition video_skip_rate (m : metrics) : Q :=
  if (video_starts m <=? 0)%Z then 0
  else inject_Z (skips m) / inject_Z (video_starts m).

Definition response_rate (m : metrics) : Q :=
  if (impressions m <=? 0)%Z then 0
  else inject_Z (interactive_engagements m) / inject_Z (impressions m).

Definition qr_scan_rate (m : metrics) : Q :=
  if (impressions m <=? 0)%Z then 0
  else inject_Z (qr_scans m) / inject_Z (impressions m).

Definition effective_cpm (m : metrics) : Z :=
  if (impressions m <=? 0)%Z then 0%Z
  else Py.int (inject_Z (spend m * 1000) / inject_Z (impressions m)).

Definition supply_funnel_efficiency (m : metrics) : Q :=
  if (requests m <=? 0)%Z then 0
  else inject_Z (eligible_impressions m) / inject_Z (requests m).

Definition auction_win_rate (m : metrics) : Q :=
  if (eligible_impressions m <=? 0)%Z then 0
  else inject_Z (auctions_won m) / inject_Z (eligible_impressions m).

Definition error_rate (m : metrics) : Q :=
  if (requests m <=? 0)%Z then 0
  else inject_Z (error_count m) / inject_Z (requests m).

Definition timeout_rate (m : metrics) : Q :=
  if (requests m <=? 0)%Z then 0
  else inject_Z (timeout_count m) / inject_Z (requests m).

(** The [Field] constraints of [BaseExtendedPerformanceMetrics]
    ([ge=0] on the counts, [1 <= frequency <= 10]). *)
Definition fields_valid (m : metrics) : bool :=
  ((0 <=? requests m) && (0 <=? responses m) && (0 <=? eligible_impressions m)
  && (0 <=? auctions_won m) && (0 <=? impressions m)
  && (0 <=? viewable_impressions m) && (0 <=? audible_impressions m)
  && (0 <=? video_starts m) && (0 <=? video_q25 m) && (0 <=? video_q50 m)
  && (0 <=? video_q75 m) && (0 <=? video_q100 m) && (0 <=? skips m)
  && (0 <=? clicks m) && (0 <=? qr_scans m) && (0 <=? interactive_engagements m)
  && (0 <=? reach m) && (1 <=? frequency m) && (frequency m <=? 10)
  && (0 <=? spend m) && (0 <=? error_count m) && (0 <=? timeout_count m))%Z.

End ExtFields.

(** ** [_audience_mix] (performance.py) *)

Module AudienceMix.
Import String.
Open Scope Q_scope.

(** [_normalize(d)]: [s = sum(d.values()) or 1.0], then [v / s]. *)
Definition normalize (d : list (string * Q)) : list (string * Q) :=
  let s0 := fold_left Qplus (map snd d) 0 in
  let s := if Qeq_bool s0 0 then 1 else s0 in
  map (fun kv => (fst kv, snd kv / s)) d.

(** [_audience_mix(rng, dt, impressions)]: the dict of dicts, as an
    association list in insertion order. *)
Definition audience_mix (rng : MT.state) (dt : Z) (impressions : Z)
  : list (string * list (string * Q)) :=
  let is_weekend := ((Time.weekday dt =? 5) || (Time.weekday dt =? 6))%Z in
  let evening := ((18 <=? Time.hour dt) || (Time.hour dt <=? 22))%Z in
  let base_device := [("CTV"%string, if is_weekend || evening then 0.45 else 0.30);
                      ("DESKTOP"%string, if is_weekend || evening then 0.20 else 0.30);
                      ("MOBILE"%string, if is_weekend || evening then 0.35 else 0.40)] in
  let base_age := [("18-24"%string, if is_weekend || evening then 0.16 else 0.12);
                   ("25-34"%string, 0.24); ("35-44"%string, 0.22); ("45-54"%string, 0.18);
                   ("55-64"%string, 0.13); ("65+"%string, 0.07)] in
  let device := normalize base_device in
  let age := normalize base_age in
  let gender := [("F"%string, 0.5); ("M"%string, 0.5)] in
  let life_stage := [("SINGLE"%string, 0.35); ("PARENT"%string, 0.40); ("EMPTY_NEST"%string, 0.25)] in
  let interest := [("SPORTS"%string, 0.20); ("ENTERTAINMENT"%string, 0.30); ("FOOD"%string, 0.20);
                   ("TECH"%string, 0.15); ("TRAVEL"%string, 0.15)] in
  [("device"%string, device); ("age"%string, age); ("gender"%string, gender);
   ("life_stage"%string, life_stage); ("interest"%string, interest)].

End AudienceMix.

(* ================================================================= *)
(** * Properties *)

(** ** Derived metrics ([safe_div], [ctr], [avg_watch_time_seconds]) *)

Module DerivedProps.
Import Ext Fixtures.
Open Scope Q_scope.

(** C7 (as amended).  [safe_div(n, d, default)] returns [default] exactly
    when [d == 0] and [n / d] for every other denominator, negative ones
    included; a metrics row with [impressions = 0] has [ctr = 0.0]. *)
Theorem safe_div_zero_denominator_only :
  forall (n d default : Q) (m : metrics),
    (d == 0 -> safe_div n d default = default) /\
    (~ d == 0 -> safe_div n d default = n / d) /\
    (impressions m = 0%Z -> ctr m = 0).
Proof.
  intros n d default m; split; [| split].
  - intro Hd. unfold safe_div. now rewrite (proj2 (Qeq_bool_iff d 0) Hd).
  - intro Hd. unfold safe_div.
    destruct (Qeq_bool d 0) eqn:E; [| reflexivity].
    exfalso. apply Hd. now apply Qeq_bool_iff.
  - intro Hi. unfold ctr. now rewrite Hi.
Qed.

Lemma safe_div_zero_denominator_only_witness :
  safe_div 1 (-2) 0 = 1 / (-2) /\ safe_div 1 0 (1 # 3) = 1 # 3 /\ ctr sample_metrics = 0.
Proof.
  destruct (safe_div_zero_denominator_only 1 (-2) 0 sample_metrics) as [_ [H2 _]].
  destruct (safe_div_zero_denominator_only 1 0 (1 # 3) sample_metrics) as [H4 [_ H6]].
  split; [apply H2; discriminate | split; [apply H4; reflexivity | apply H6; reflexivity]].
Defined.

(** C7 counterexample: a negative denominator is not [> 0], yet
    [safe_div 1 (-2) 0.0] is [-0.5], not the default [0.0]. *)
Lemma safe_div_negative_denominator :
  ~ (forall n d default : Q, ~ 0 < d -> safe_div n d default == default).
Proof.
  intro H. specialize (H 1 (-2) 0).
  assert (Hn : ~ 0 < -2) by (intro X; discriminate X).
  specialize (H Hn). vm_compute in H. discriminate H.
Qed.

Lemma inject_Z_max0 (a : Z) : (0 <= a)%Z -> Z.max 0 a = a.
Proof. intro; lia. Qed.

(** C10.  For monotone quartile counts bounded by [video_starts > 0], the
    estimated watch time lies between the first midpoint (3.75 s) and the
    30 s asset length; it is [0.0] when [video_starts <= 0]. *)
Theorem avg_watch_time_bounds :
  forall m : metrics,
    ((0 < video_starts m)%Z ->
     (video_q25 m <= video_starts m)%Z -> (video_q50 m <= video_q25 m)%Z ->
     (video_q75 m <= video_q50 m)%Z -> (video_q100 m <= video_q75 m)%Z ->
     (0 <= video_q100 m)%Z ->
     (15 # 4) <= avg_watch_time_seconds m <= 30) /\
    ((video_starts m <= 0)%Z -> avg_watch_time_seconds m = 0).
Proof.
  intro m; split.
  - intros Hs H25 H50 H75 H100 H0.
    unfold avg_watch_time_seconds.
    destruct (video_starts m <=? 0)%Z eqn:E; [lia |].
    rewrite !inject_Z_max0 by lia.
    set (v := video_starts m) in *.
    set (a := video_q25 m) in *. set (b := video_q50 m) in *.
    set (c := video_q75 m) in *. set (e := video_q100 m) in *.
    assert (Hv : 0 < inject_Z v) by (change 0 with (inject_Z 0); rewrite <- Zlt_Qlt; exact Hs).
    unfold Z.sub; rewrite ?inject_Z_plus, ?inject_Z_opp.
    assert (Ha : inject_Z a <= inject_Z v) by (rewrite <- Zle_Qle; lia).
    assert (Hb : inject_Z b <= inject_Z a) by (rewrite <- Zle_Qle; lia).
    assert (Hc : inject_Z c <= inject_Z b) by (rewrite <- Zle_Qle; lia).
    assert (He : inject_Z e <= inject_Z c) by (rewrite <- Zle_Qle; lia).
    assert (He0 : 0 <= inject_Z e) by (change 0 with (inject_Z 0); rewrite <- Zle_Qle; lia).
    split.
    + apply Qle_shift_div_l; [exact Hv |]. Lqa.lra.
    + apply Qle_shift_div_r; [exact Hv |]. Lqa.lra.
  - intro Hs. unfold avg_watch_time_seconds.
    destruct (video_starts m <=? 0)%Z eqn:E; [reflexivity | lia].
Qed.

Lemma avg_watch_time_bounds_witness :
  (15 # 4) <= avg_watch_time_seconds
                (mkMetrics 1 0 0 0 0 0 10 0 0 10 8 5 2 1 0 0 0 0 1 1 0 0 0 None 1) <= 30 /\
  avg_watch_time_seconds sample_metrics = 0.
Proof.
  split.
  - apply (proj1 (avg_watch_time_bounds
                    (mkMetrics 1 0 0 0 0 0 10 0 0 10 8 5 2 1 0 0 0 0 1 1 0 0 0 None 1)));
      vm_compute; congruence.
  - apply (proj2 (avg_watch_time_bounds sample_metrics)). vm_compute. congruence.
Defined.

End DerivedProps.

(** ** The temporal factor *)

Module TemporalProps.
Import Temporal.
Open Scope R_scope.

Lemma hourly_boost_ge_1 (dt : Z) : 1 <= hourly_boost dt.
Proof.
  unfold hourly_boost.
  destruct ((9 <=? Time.hour dt) && (Time.hour dt <=? 17))%Z; [| lra].
  pose proof (exp_pos (-0.5 * ((IZR (Time.hour dt) - 13) / 2.5) * ((IZR (Time.hour dt) - 13) / 2.5))).
  lra.
Qed.

Lemma dow_factor_ge (dt : Z) : 0.88 <= dow_factor dt.
Proof.
  unfold dow_factor.
  destruct (Time.weekday dt =? 4)%Z; [lra |].
  destruct (Time.weekday dt =? 5)%Z; [lra |].
  destruct (Time.weekday dt =? 6)%Z; lra.
Qed.

Lemma ramp_factor_ge (s c e : Z) : 0.85 * 0.97 <= ramp_factor s c e.
Proof.
  unfold ramp_factor.
  set (x := (Rmin 1 (Rmax 0 (hours_diff s c / Rmax 1 (hours_diff s e))) - 0.5) * 6).
  set (w := sin (2 * PI * hours_diff s c / 168)).
  pose proof (exp_pos (- x)) as Hx.
  assert (Hs : 0 < 1 / (1 + exp (- x))).
  { apply Rdiv_lt_0_compat; lra. }
  pose proof (SIN_bound (2 * PI * hours_diff s c / 168)) as Hw. fold w in Hw.
  apply Rmult_le_compat; lra.
Qed.

Lemma annual_factor_ge (dt : Z) : 0.8 <= annual_factor dt.
Proof.
  unfold annual_factor.
  pose proof (COS_bound (2 * PI * IZR (Time.yday dt - 1) / 365)). lra.
Qed.

(** C8.  [calculate_temporal_factor] is the product of its four
    sub-factors and is strictly positive, for every triple of datetimes. *)
Theorem temporal_factor_positive_product :
  forall start_dt current_dt end_dt : Z,
    calculate_temporal_factor start_dt current_dt end_dt =
      hourly_boost current_dt * dow_factor current_dt *
      ramp_factor start_dt current_dt end_dt * annual_factor current_dt /\
    0 < calculate_temporal_factor start_dt current_dt end_dt.
Proof.
  intros s c e. split; [reflexivity |].
  unfold calculate_temporal_factor; cbv zeta.
  pose proof (hourly_boost_ge_1 c). pose proof (dow_factor_ge c).
  pose proof (ramp_factor_ge s c e). pose proof (annual_factor_ge c).
  apply Rmult_lt_0_compat; [apply Rmult_lt_0_compat; [apply Rmult_lt_0_compat |] |]; lra.
Qed.

(** The factor never drops below one half
    ([1 * 0.88 * (0.85 * 0.97) * 0.8 > 0.58]). *)
Lemma temporal_factor_ge_half (s c e : Z) :
  1 / 2 <= calculate_temporal_factor s c e.
Proof.
  unfold calculate_temporal_factor; cbv zeta.
  pose proof (hourly_boost_ge_1 c). pose proof (dow_factor_ge c).
  pose proof (ramp_factor_ge s c e). pose proof (annual_factor_ge c).
  apply Rle_trans with (1 * 0.88 * (0.85 * 0.97) * 0.8); [lra |].
  apply Rmult_le_compat; [lra | lra | | lra].
  apply Rmult_le_compat; [lra | lra | | lra].
  apply Rmult_le_compat; lra.
Qed.

End TemporalProps.

(** ** Facts on the Python numeric built-ins *)

Module PyFacts.
Open Scope Q_scope.

Lemma fmax_le (a b c : Q) : a <= c -> b <= c -> Py.fmax a b <= c.
Proof. unfold Py.fmax. destruct (Qle_bool b a); auto. Qed.

Lemma le_fmax_l (a b : Q) : a <= Py.fmax a b.
Proof.
  unfold Py.fmax. destruct (Qle_bool b a) eqn:E; [apply Qle_refl |].
  apply Qlt_le_weak, Qnot_le_lt. intro H. apply Qle_bool_iff in H. congruence.
Qed.

Lemma le_fmax_r (a b : Q) : b <= Py.fmax a b.
Proof.
  unfold Py.fmax. destruct (Qle_bool b a) eqn:E; [now apply Qle_bool_iff | apply Qle_refl].
Qed.

Lemma fmin_le_l (a b : Q) : Py.fmin a b <= a.
Proof.
  unfold Py.fmin. destruct (Qle_bool a b) eqn:E; [apply Qle_refl |].
  apply Qlt_le_weak, Qnot_le_lt. intro H. apply Qle_bool_iff in H. congruence.
Qed.

Lemma fmin_le_r (a b : Q) : Py.fmin a b <= b.
Proof.
  unfold Py.fmin. destruct (Qle_bool a b) eqn:E; [now apply Qle_bool_iff | apply Qle_refl].
Qed.

Lemma le_fmin (a b c : Q) : c <= a -> c <= b -> c <= Py.fmin a b.
Proof. unfold Py.fmin. destruct (Qle_bool a b); auto. Qed.

Lemma int_nonneg (x : Q) : 0 <= x -> Py.int x = Qfloor x.
Proof.
  intro H. unfold Py.int. now rewrite (proj2 (Qle_bool_iff 0 x) H).
Qed.

Lemma int_neg (x : Q) : x < 0 -> (Py.int x <= 0)%Z.
Proof.
  intro H. unfold Py.int.
  destruct (Qle_bool 0 x) eqn:E.
  - apply Qle_bool_iff in E. exfalso. apply (Qlt_not_le _ _ H E).
  - assert (0 <= - x) by (Lqa.lra).
    pose proof (Qfloor_resp_le 0 (- x) H0). change (Qfloor 0) with 0%Z in H1. lia.
Qed.

Lemma pos_int_mono (x y : Q) : x <= y -> (Ext.pos_int x <= Ext.pos_int y)%Z.
Proof.
  intro H. unfold Ext.pos_int.
  destruct (Qlt_le_dec x 0) as [Hx | Hx].
  - pose proof (int_neg x Hx). lia.
  - rewrite (int_nonneg x Hx), (int_nonneg y (Qle_trans _ _ _ Hx H)).
    pose proof (Qfloor_resp_le x y H). lia.
Qed.

Lemma pos_int_nonneg (x : Q) : (0 <= Ext.pos_int x)%Z.
Proof. unfold Ext.pos_int. lia. Qed.

Lemma floor_lower (x : Q) : x - 1 < inject_Z (Qfloor x).
Proof.
  pose proof (Qlt_floor x). rewrite inject_Z_plus in H. change (inject_Z 1) with 1 in H. Lqa.lra.
Qed.

End PyFacts.

(** Splits every draw [let '(x, st') := draw st in ...] of an unfolded
    generator. *)
Ltac split_draws :=
  repeat match goal with
  | |- context [ match ?d with pair _ _ => _ end ] => destruct d
  end.

(** ** Funnel monotonicity of the video quartiles *)

Module QuartileProps.
Import PyFacts Fixtures.
Open Scope Q_scope.

Lemma rate_chain (hi lo u : Q) : lo <= hi -> Py.fmax lo (Py.fmin hi u) <= hi.
Proof. intro H. apply fmax_le; [exact H | apply fmin_le_l]. Qed.

Lemma scaled_mono (v r r' : Q) : 0 <= v -> r <= r' ->
  (Ext.pos_int (v * r) <= Ext.pos_int (v * r'))%Z.
Proof.
  intros Hv Hr. apply pos_int_mono.
  rewrite (Qmult_comm v r), (Qmult_comm v r'). now apply Qmult_le_compat_r.
Qed.

Lemma draw_metrics_monotone (cid hour : Z) (f : Q) (sd : option Z) (st : MT.state) :
  ext_quartiles_monotone (fst (Ext.draw_metrics cid hour f sd st)).
Proof.
  cbv [Ext.draw_metrics PyRandom.bind PyRandom.ret]. split_draws.
  cbv [fst ext_quartiles_monotone Ext.video_q25 Ext.video_q50 Ext.video_q75 Ext.video_q100].
  match goal with
  | |- context [Ext.pos_int (inject_Z ?vs * _)] =>
      assert (Hv : 0 <= inject_Z vs)
        by (change 0 with (inject_Z 0); rewrite <- Zle_Qle; apply pos_int_nonneg)
  end.
  repeat split.
  - apply scaled_mono; [exact Hv |]. apply rate_chain.
    eapply Qle_trans; [| apply le_fmax_l]. vm_compute. discriminate.
  - apply scaled_mono; [exact Hv |]. apply rate_chain.
    eapply Qle_trans; [| apply le_fmax_l]. vm_compute. discriminate.
  - apply scaled_mono; [exact Hv |]. apply rate_chain.
    eapply Qle_trans; [| apply le_fmax_l]. vm_compute. discriminate.
  - apply pos_int_nonneg.
Qed.

End QuartileProps.

(** Evaluates every draw of an unfolded generator run from a concrete
    state, leaving the factor symbolic. *)
Ltac run_draws :=
  repeat match goal with
  | |- context [ match ?d with pair _ _ => _ end ] =>
      let r := eval vm_compute in d in
      replace d with r by (vm_compute; reflexivity); cbv beta iota
  end.

(** ** The row objects the orchestrators build *)

Module RunFacts.
Open Scope Q_scope.

(** [Random(seed)] for an int seed does not read the entropy. *)
Lemma Random_some (a : Z) (entropy : list Z) : PyRandom.Random (Some a) entropy = MT.seed_int a.
Proof. reflexivity. Qed.

(** With an int seed, [generate_raw_metrics] draws from a fresh
    [Random(seed)], whatever the state it is given. *)
Lemma generate_raw_metrics_seeded (cid h : Z) (f : Q) (a : Z) (st : MT.state) :
  Ext.generate_raw_metrics cid h f (Some a) st = Ext.draw_metrics cid h f (Some a) (MT.seed_int a).
Proof. reflexivity. Qed.

(** The keywords of [create_performance_row] are not all attributes of
    [CampaignPerformance] ([ctr] is the first that is not). *)
Lemma perf_kwargs_rejected :
  Orm.orm_init_ok Orm.CampaignPerformance.columns Basic.perf_kwarg_names = false.
Proof. reflexivity. Qed.

Lemma create_performance_row_raises (kw : Basic.perf_kwargs) :
  Orchestrator.create_performance_row kw = None.
Proof. unfold Orchestrator.create_performance_row. rewrite perf_kwargs_rejected. reflexivity. Qed.

(** The loop of [generate_hourly_performance_raw] raises at its first hour:
    it builds no row object. *)
Lemma raw_rows_raise (tf : Z -> Z -> Z -> Q) (cid s e : Z) (hours : list Z) (st : MT.state) :
  fst (Orchestrator.raw_rows tf cid s e hours st) =
  match hours with [] => Some [] | _ :: _ => None end.
Proof.
  destruct hours as [| h hs]; [reflexivity |].
  cbn [Orchestrator.raw_rows]. cbv [PyRandom.bind].
  destruct (Basic.gen_hour cid h (tf s h e) st) as [kw st1].
  rewrite create_performance_row_raises. reflexivity.
Qed.

(** The keywords of the [CampaignPerformanceExtended] constructor call are
    columns of the class, but they leave the NOT NULL columns
    [daily_day_date], [weekly_start_day_date] and [monthly_start_day_date]
    without value. *)
Lemma ext_kwargs_accepted :
  Orm.orm_init_ok Orm.CampaignPerformanceExtended.columns
    Orm.CampaignPerformanceExtended.row_kwargs = true.
Proof. reflexivity. Qed.

Lemma ext_kwargs_incomplete :
  Orm.not_null_ok Orm.CampaignPerformanceExtended.not_null
    Orm.CampaignPerformanceExtended.row_kwargs = false.
Proof. reflexivity. Qed.

(** The first row of the extended loop is drawn from the initial state. *)
Lemma ext_rows_head (tf : Z -> Z -> Z -> Q) (cid : Z) (seed : option Z) (s e h : Z)
  (hs : list Z) (st : MT.state) :
  exists rs, fst (Orchestrator.ext_rows tf cid seed s e (h :: hs) st) =
    (fst (Ext.generate_raw_metrics cid h (tf s h e) seed st),
     Py.int (Ext.avg_watch_time_seconds (fst (Ext.generate_raw_metrics cid h (tf s h e) seed st))))
    :: rs.
Proof.
  cbn [Orchestrator.ext_rows]. cbv [PyRandom.bind PyRandom.ret].
  destruct (Ext.generate_raw_metrics cid h (tf s h e) seed st) as [m st1].
  destruct (Orchestrator.ext_rows tf cid seed s e hs st1) as [rs st2].
  now exists rs.
Qed.

(** The extended loop builds one row per hour. *)
Lemma ext_rows_cons (tf : Z -> Z -> Z -> Q) (cid : Z) (seed : option Z) (s e : Z)
  (hours : list Z) (st : MT.state) :
  match hours with
  | [] => fst (Orchestrator.ext_rows tf cid seed s e hours st) = []
  | _ :: _ => exists r rs, fst (Orchestrator.ext_rows tf cid seed s e hours st) = r :: rs
  end.
Proof.
  destruct hours as [| h hs]; [reflexivity |].
  destruct (ext_rows_head tf cid seed s e h hs st) as [rs Hrs]. rewrite Hrs. eauto.
Qed.

End RunFacts.

Module FunnelMonotonicity.
Import QuartileProps Fixtures RunFacts.
Open Scope Q_scope.

(** C1.  Every row built by the loop of [generate_hourly_performance_ext]
    has monotone quartile counts
    [video_q25 >= video_q50 >= video_q75 >= video_q100 >= 0], for every
    temporal factor, seed, hours and generator state: the rates are
    chained by [min] and multiplied by the same [video_starts].  The loop
    of [generate_hourly_performance_raw] builds no row at all: it raises
    ([TypeError] in [create_performance_row]) at its first hour. *)
Theorem hourly_rows_quartiles_monotone :
  (forall (tf : Z -> Z -> Z -> Q) (cid : Z) (seed : option Z) (s e : Z) (hours : list Z)
          (st : MT.state),
     Forall (fun r => ext_quartiles_monotone (fst r))
       (fst (Orchestrator.ext_rows tf cid seed s e hours st))) /\
  (forall (tf : Z -> Z -> Z -> Q) (cid s e : Z) (hours : list Z) (st : MT.state),
     fst (Orchestrator.raw_rows tf cid s e hours st) =
     match hours with [] => Some [] | _ :: _ => None end).
Proof.
  split; [| exact raw_rows_raise].
  intros tf cid seed s e hours.
  induction hours as [| h hs IH]; intro st; cbn [Orchestrator.ext_rows].
  - constructor.
  - cbv [PyRandom.bind PyRandom.ret].
    destruct (Ext.generate_raw_metrics cid h (tf s h e) seed st) as [m st1] eqn:E.
    specialize (IH st1).
    destruct (Orchestrator.ext_rows tf cid seed s e hs st1) as [rs st2].
    constructor; [| exact IH].
    change m with (fst (m, st1)). rewrite <- E.
    unfold Ext.generate_raw_metrics. apply draw_metrics_monotone.
Qed.

End FunnelMonotonicity.

(* ================================================================= *)
(** ** The audible impressions *)

Module SupplyFunnel.
Import Fixtures.
Open Scope Q_scope.

(** C5 (as amended).  In [generate_raw_metrics], [audible_impressions]
    is [max(0, int(impressions * clamp(u * m, 0.20, 0.95)))], truncated,
    where [u] is the value drawn by [uniform(0.35, 0.80)] and [m] is 1.05
    exactly when the hour of day is in [18, 22], 0.95 otherwise. *)
Theorem audible_impressions_truncated (cid hour : Z) (f : Q) (sd : option Z) (st : MT.state) :
  Ext.audible_impressions (fst (Ext.draw_metrics cid hour f sd st)) =
  Ext.pos_int (inject_Z (Ext.impressions (fst (Ext.draw_metrics cid hour f sd st))) *
    Py.fmax 0.20 (Py.fmin 0.95 (fst (ext_audibility_draw st) *
      (if ((18 <=? Time.hour hour) && (Time.hour hour <=? 22))%Z then 1.05 else 0.95)))).
Proof.
  cbv [Ext.draw_metrics ext_audibility_draw ext_auction_draw PyRandom.bind PyRandom.ret].
  split_draws. reflexivity.
Qed.

(** C5 (counterexample).  The same formula with [round] instead of the
    truncation fails: [generate_raw_metrics(1, 2024-01-01 00:00, 1.0,
    seed=0)] draws from [Random(0)] and stores [audible_impressions = 4880]
    where the rounded value is 4881. *)
Lemma audible_impressions_not_rounded :
  ~ (forall (cid hour : Z) (f : Q) (sd : option Z) (st : MT.state),
       Ext.audible_impressions (fst (Ext.draw_metrics cid hour f sd st)) =
       Py.round (inject_Z (Ext.impressions (fst (Ext.draw_metrics cid hour f sd st))) *
         Py.fmax 0.20 (Py.fmin 0.95 (fst (ext_audibility_draw st) *
           (if ((18 <=? Time.hour hour) && (Time.hour hour <=? 22))%Z then 1.05 else 0.95))))).
Proof.
  intro H. specialize (H 1%Z flight_start 1 (Some 0%Z) (MT.seed_int 0)).
  vm_compute in H. discriminate.
Qed.

End SupplyFunnel.

(* ================================================================= *)
(** ** Tables: clearing, batch insert and key uniqueness *)

Module StoreProps.
Import Orm Store Regen RunFacts.
Open Scope Z_scope.

Lemma raw_as_regen tf cid seed entropy replace d :
  Orchestrator.generate_hourly_performance_raw tf cid seed entropy replace d =
  regen perf_key perf_checks CampaignPerformance.not_null perf_kwargs_of
    campaign_performance set_perf (raw_rows_for tf cid seed entropy) cid replace d.
Proof. reflexivity. Qed.

Lemma ext_as_regen tf cid seed entropy replace d :
  Orchestrator.generate_hourly_performance_ext tf cid seed entropy replace d =
  regen ext_key ext_checks CampaignPerformanceExtended.not_null ext_kwargs_of
    campaign_performance_extended set_ext (fun fl => Some (ext_rows_for tf cid seed entropy fl))
    cid replace d.
Proof. reflexivity. Qed.

Section Tables.
Variable Row : Type.
Variable key : Row -> Z * Z.

Lemma rows_of_clear (cid : Z) (tbl : list Row) :
  rows_of key cid (clear_existing_performance key tbl cid) = [].
Proof.
  induction tbl as [| r t IH]; cbn; [reflexivity |].
  destruct (fst (key r) =? cid) eqn:E; cbn; [exact IH |].
  rewrite E. exact IH.
Qed.

Lemma clear_incl (cid : Z) (tbl : list Row) :
  incl (clear_existing_performance key tbl cid) tbl.
Proof. intros r Hr. apply filter_In in Hr as [Hr _]. exact Hr. Qed.

(** An empty batch inserts nothing and succeeds. *)
Lemma batch_insert_nil (checks : Row -> bool) (nn : list String.string)
  (kw : Row -> list String.string) (tbl : list Row) :
  batch_insert_performance key checks nn kw tbl [] = Some tbl.
Proof. unfold batch_insert_performance. cbn. rewrite app_nil_r. reflexivity. Qed.

End Tables.

Lemma gcf_same (d1 d2 : db) (cid : Z) :
  campaigns d1 = campaigns d2 -> flights d1 = flights d2 ->
  get_campaign_and_flight d1 cid = get_campaign_and_flight d2 cid.
Proof. intros Hc Hf. unfold get_campaign_and_flight. now rewrite Hc, Hf. Qed.

Lemma draw_metrics_key (cid h : Z) (f : Q) (sd : option Z) (st : MT.state) :
  (Ext.campaign_id (fst (Ext.draw_metrics cid h f sd st)),
   Ext.hour_ts (fst (Ext.draw_metrics cid h f sd st))) = (cid, h).
Proof. cbv [Ext.draw_metrics PyRandom.bind PyRandom.ret]. split_draws. reflexivity. Qed.

Lemma ext_rows_keys tf (cid : Z) (seed : option Z) (s e : Z) (hours : list Z) (st : MT.state) :
  map ext_key (fst (Orchestrator.ext_rows tf cid seed s e hours st)) = map (fun h => (cid, h)) hours.
Proof.
  revert st. induction hours as [| h hs IH]; intro st; [reflexivity |].
  cbn [Orchestrator.ext_rows]. cbv [PyRandom.bind PyRandom.ret].
  assert (K : (Ext.campaign_id (fst (Ext.generate_raw_metrics cid h (tf s h e) seed st)),
               Ext.hour_ts (fst (Ext.generate_raw_metrics cid h (tf s h e) seed st))) = (cid, h))
    by apply draw_metrics_key.
  destruct (Ext.generate_raw_metrics cid h (tf s h e) seed st) as [m st1].
  specialize (IH st1).
  destruct (Orchestrator.ext_rows tf cid seed s e hs st1) as [rs st2].
  cbn in *. unfold ext_key at 1. cbn. rewrite K, IH. reflexivity.
Qed.

Lemma hours_between_NoDup (s e : Z) : NoDup (Time.hours_between s e).
Proof.
  unfold Time.hours_between. apply NoDup_map_NoDup_ForallPairs; [| apply seq_NoDup].
  intros a b _ _ E. unfold Time.USEC_PER_HOUR in E. lia.
Qed.

Lemma hours_between_length (a b : Z) :
  Z.of_nat (length (Time.hours_between (Time.start_of_day a) (Time.last_hour_of_day b))) =
  if a <=? b then 24 * (b - a + 1) else 0.
Proof.
  unfold Time.hours_between, Time.hours_count, Time.start_of_day, Time.last_hour_of_day.
  rewrite length_map, length_seq.
  unfold Time.USEC_PER_DAY, Time.USEC_PER_HOUR.
  destruct (a <=? b) eqn:Hab.
  - apply Z.leb_le in Hab.
    replace (a * 86400000000 <=? b * 86400000000 + 23 * 3600000000) with true by (symmetry; apply Z.leb_le; lia).
    replace (b * 86400000000 + 23 * 3600000000 - a * 86400000000)
      with ((24 * (b - a) + 23) * 3600000000) by ring.
    rewrite Z.div_mul by lia. rewrite Z2Nat.id by lia. ring.
  - apply Z.leb_gt in Hab.
    replace (a * 86400000000 <=? b * 86400000000 + 23 * 3600000000) with false by (symmetry; apply Z.leb_gt; lia).
    reflexivity.
Qed.

(** The flight window has an hour exactly when the flight does not end
    before it starts. *)
Lemma hours_between_shape (a b : Z) :
  match Time.hours_between (Time.start_of_day a) (Time.last_hour_of_day b) with
  | [] => (a <=? b) = false
  | _ :: _ => (a <=? b) = true
  end.
Proof.
  pose proof (hours_between_length a b) as H.
  destruct (Time.hours_between _ _) as [| h hs]; cbn [length] in H;
    destruct (a <=? b) eqn:E; try reflexivity;
    first [apply Z.leb_le in E; lia | rewrite Nat2Z.inj_succ in H; lia].
Qed.

(** The outcome of a run of [generate_hourly_performance_raw]: it raises
    when the campaign has several flights, and when its flight has an hour
    (at the first row object); otherwise it returns 0, after clearing the
    campaign's rows when [replace]. *)
Lemma raw_run_eq tf cid seed ent replace d :
  Orchestrator.generate_hourly_performance_raw tf cid seed ent replace d =
  match get_campaign_and_flight d cid with
  | None => None
  | Some None => Some (d, 0)
  | Some (Some fl) =>
      if start_date fl <=? end_date fl then None
      else Some (set_perf d (if replace
                             then clear_existing_performance perf_key (campaign_performance d) cid
                             else campaign_performance d), 0)
  end.
Proof.
  rewrite raw_as_regen. unfold regen.
  destruct (get_campaign_and_flight d cid) as [[fl |] |]; try reflexivity.
  unfold raw_rows_for. cbv zeta. rewrite raw_rows_raise.
  pose proof (hours_between_shape (start_date fl) (end_date fl)) as H.
  destruct (Time.hours_between _ _) as [| h hs]; rewrite H; [| reflexivity].
  rewrite batch_insert_nil. reflexivity.
Qed.

(** The outcome of a run of [generate_hourly_performance_ext]: the same;
    when the flight has an hour, the flush of its rows raises (NOT NULL
    date columns). *)
Lemma ext_run_eq tf cid seed ent replace d :
  Orchestrator.generate_hourly_performance_ext tf cid seed ent replace d =
  match get_campaign_and_flight d cid with
  | None => None
  | Some None => Some (d, 0)
  | Some (Some fl) =>
      if start_date fl <=? end_date fl then None
      else Some (set_ext d (if replace
                            then clear_existing_performance ext_key (campaign_performance_extended d) cid
                            else campaign_performance_extended d), 0)
  end.
Proof.
  rewrite ext_as_regen. unfold regen.
  destruct (get_campaign_and_flight d cid) as [[fl |] |]; try reflexivity.
  unfold ext_rows_for. cbv zeta.
  pose proof (hours_between_shape (start_date fl) (end_date fl)) as H.
  pose proof (ext_rows_cons tf cid seed (Time.start_of_day (start_date fl))
                (Time.last_hour_of_day (end_date fl))
                (Time.hours_between (Time.start_of_day (start_date fl))
                   (Time.last_hour_of_day (end_date fl)))
                (PyRandom.Random seed ent)) as C.
  destruct (Time.hours_between _ _) as [| h hs]; rewrite H.
  - rewrite C, batch_insert_nil. reflexivity.
  - destruct C as (r & rs & C). rewrite C.
    unfold batch_insert_performance. cbn [forallb]. unfold ext_kwargs_of.
    rewrite ext_kwargs_incomplete. reflexivity.
Qed.

End StoreProps.

(* ================================================================= *)
(** ** Regeneration: determinism, replace, seeding *)

Module RegenProps.
Import Store Regen StoreProps Fixtures.
Open Scope Z_scope.

(** C2.  Two [replace=True] runs with the same campaign, int seed and
    flight build the same row objects for the flight, value by value,
    whatever the [os.urandom] entropy of each run.  On databases that agree
    on campaigns and flights, the two runs give the same result: both
    raise, or both return the same count and leave the same rows for the
    campaign, whatever rows the tables held before.  Both
    orchestrators. *)
Theorem replace_runs_deterministic (tf : Z -> Z -> Z -> Q) (cid a : Z) (ent1 ent2 : list Z)
  (d1 d2 : db) (fl : flight) :
  get_campaign_and_flight d1 cid = Some (Some fl) ->
  campaigns d2 = campaigns d1 -> flights d2 = flights d1 ->
  raw_rows_for tf cid (Some a) ent1 fl = raw_rows_for tf cid (Some a) ent2 fl /\
  ext_rows_for tf cid (Some a) ent1 fl = ext_rows_for tf cid (Some a) ent2 fl /\
  same_output perf_key campaign_performance cid
    (Orchestrator.generate_hourly_performance_raw tf cid (Some a) ent1 true d1)
    (Orchestrator.generate_hourly_performance_raw tf cid (Some a) ent2 true d2) /\
  same_output ext_key campaign_performance_extended cid
    (Orchestrator.generate_hourly_performance_ext tf cid (Some a) ent1 true d1)
    (Orchestrator.generate_hourly_performance_ext tf cid (Some a) ent2 true d2).
Proof.
  intros Hg Hc Hf.
  assert (Hg2 : get_campaign_and_flight d2 cid = Some (Some fl))
    by (rewrite <- Hg; apply gcf_same; assumption).
  split; [reflexivity |]. split; [reflexivity |].
  rewrite !raw_run_eq, !ext_run_eq, Hg, Hg2.
  destruct (start_date fl <=? end_date fl); [split; exact I |].
  unfold same_output, set_perf, set_ext. cbn [campaign_performance campaign_performance_extended].
  rewrite !rows_of_clear. split; split; reflexivity.
Qed.

(** C9.  A [replace=True] run of either orchestrator, for a campaign with
    exactly one flight that has at least one hour, raises, whatever the
    seed, the entropy and the temporal factor: the basic one when it
    builds its first row object ([TypeError]), the extended one when it
    flushes its rows ([IntegrityError]).  The transaction is rolled back,
    so the campaign's rows are never replaced by one row per hour. *)
Theorem replace_regeneration_raises (tf : Z -> Z -> Z -> Q) (cid : Z) (seed : option Z)
  (ent : list Z) (d : db) (fl : flight) :
  get_campaign_and_flight d cid = Some (Some fl) ->
  start_date fl <= end_date fl ->
  Orchestrator.generate_hourly_performance_raw tf cid seed ent true d = None /\
  Orchestrator.generate_hourly_performance_ext tf cid seed ent true d = None.
Proof.
  intros Hg Hle. rewrite raw_run_eq, ext_run_eq, Hg.
  replace (start_date fl <=? end_date fl) with true by (symmetry; apply Z.leb_le; exact Hle).
  split; reflexivity.
Qed.

(** C3 (the extended orchestrator).  With a seed, every hour's row of
    [generate_hourly_performance_ext] is drawn from a fresh [Random(seed)]:
    the [i]-th row depends only on its hour, not on the draws of the
    earlier hours nor on the state the loop started from.  (The basic
    orchestrator threads one stream through [raw_rows].) *)
Theorem ext_rows_reseed_each_hour (tf : Z -> Z -> Z -> Q) (cid a s e : Z) (hours : list Z)
  (st : MT.state) :
  map fst (fst (Orchestrator.ext_rows tf cid (Some a) s e hours st)) =
  map (fun h => fst (Ext.draw_metrics cid h (tf s h e) (Some a) (MT.seed_int a))) hours.
Proof.
  revert st. induction hours as [| h hs IH]; intro st; [reflexivity |].
  cbn [Orchestrator.ext_rows map]. cbv [PyRandom.bind PyRandom.ret].
  change (Ext.generate_raw_metrics cid h (tf s h e) (Some a) st)
    with (Ext.draw_metrics cid h (tf s h e) (Some a) (MT.seed_int a)).
  destruct (Ext.draw_metrics cid h (tf s h e) (Some a) (MT.seed_int a)) as [m st1].
  specialize (IH st1).
  destruct (Orchestrator.ext_rows tf cid (Some a) s e hs st1) as [rs st2].
  cbn in *. rewrite IH. reflexivity.
Qed.

(** Witness of C2, on the one-day flight, with different entropy. *)
Lemma replace_runs_deterministic_witness :
  raw_rows_for unit_factor 1 (Some 42) [] one_day_flight =
    raw_rows_for unit_factor 1 (Some 42) [7] one_day_flight /\
  ext_rows_for unit_factor 1 (Some 42) [] one_day_flight =
    ext_rows_for unit_factor 1 (Some 42) [7] one_day_flight /\
  same_output perf_key campaign_performance 1
    (Orchestrator.generate_hourly_performance_raw unit_factor 1 (Some 42) [] true one_day_db)
    (Orchestrator.generate_hourly_performance_raw unit_factor 1 (Some 42) [7] true one_day_db) /\
  same_output ext_key campaign_performance_extended 1
    (Orchestrator.generate_hourly_performance_ext unit_factor 1 (Some 42) [] true one_day_db)
    (Orchestrator.generate_hourly_performance_ext unit_factor 1 (Some 42) [7] true one_day_db).
Proof.
  exact (replace_runs_deterministic unit_factor 1 42 [] [7] one_day_db one_day_db one_day_flight
           eq_refl eq_refl eq_refl).
Defined.

(** Witness of C9: campaign 1 and its one-day flight of 2024-01-01, with
    seed 42. *)
Lemma replace_regeneration_raises_witness :
  Orchestrator.generate_hourly_performance_raw unit_factor 1 (Some 42) [] true one_day_db = None /\
  Orchestrator.generate_hourly_performance_ext unit_factor 1 (Some 42) [] true one_day_db = None.
Proof.
  exact (replace_regeneration_raises unit_factor 1 (Some 42) [] one_day_db one_day_flight
           eq_refl (Z.le_refl jan_1_2024)).
Defined.

End RegenProps.

(* ================================================================= *)
(** ** The generator state stays well formed

    Every draw keeps each of the 624 words of the Mersenne Twister state
    below [2^32]; [init_by_array] builds such a state from any key. *)

Module Words.
Import RngInv.
Open Scope Z_scope.


Lemma bound_log2 (x : Z) : 0 <= x -> Z.log2 x < 32 -> x < 2 ^ 32.
Proof.
  intros H0 H. destruct (Z.eq_dec x 0) as [-> | Hx]; [lia |].
  apply Z.log2_lt_pow2; lia.
Qed.

Lemma log2_bound (x : Z) : 0 <= x < 2 ^ 32 -> Z.log2 x < 32.
Proof.
  intros [H0 H]. destruct (Z.eq_dec x 0) as [-> | Hx]; [cbn; lia |].
  apply Z.log2_lt_pow2; lia.
Qed.

Lemma lxor_ok (a b : Z) : word_ok a -> word_ok b -> word_ok (Z.lxor a b).
Proof.
  unfold word_ok. intros Ha Hb.
  assert (0 <= Z.lxor a b) by (apply Z.lxor_nonneg; lia).
  split; [lia |]. apply bound_log2; [lia |].
  pose proof (Z.log2_lxor a b ltac:(lia) ltac:(lia)).
  pose proof (log2_bound a Ha). pose proof (log2_bound b Hb). lia.
Qed.

Lemma lor_ok (a b : Z) : word_ok a -> word_ok b -> word_ok (Z.lor a b).
Proof.
  unfold word_ok. intros Ha Hb.
  assert (0 <= Z.lor a b) by (apply Z.lor_nonneg; lia).
  split; [lia |]. apply bound_log2; [lia |].
  rewrite (Z.log2_lor a b ltac:(lia) ltac:(lia)).
  pose proof (log2_bound a Ha). pose proof (log2_bound b Hb). lia.
Qed.

Lemma land_ok (a b : Z) : 0 <= a -> word_ok b -> word_ok (Z.land a b).
Proof.
  unfold word_ok. intros Ha Hb.
  assert (0 <= Z.land a b) by (apply Z.land_nonneg; lia).
  split; [lia |]. apply bound_log2; [lia |].
  pose proof (Z.log2_land a b ltac:(lia) ltac:(lia)).
  pose proof (log2_bound b Hb). lia.
Qed.

Lemma mask_ok (a : Z) : word_ok (Z.land a MT.MASK32).
Proof.
  unfold word_ok. change MT.MASK32 with (Z.ones 32). rewrite Z.land_ones by lia.
  apply Z.mod_pos_bound. lia.
Qed.

Lemma shiftr_ok (a k : Z) : word_ok a -> 0 <= k -> word_ok (Z.shiftr a k).
Proof.
  unfold word_ok. intros Ha Hk. rewrite Z.shiftr_div_pow2 by exact Hk.
  pose proof (Z.pow_pos_nonneg 2 k ltac:(lia) Hk).
  split; [apply Z.div_pos; lia |].
  apply Z.le_lt_trans with a; [| lia]. apply Z.div_le_upper_bound; [lia |]. nia.
Qed.

Lemma shiftl_nonneg (a k : Z) : 0 <= a -> 0 <= Z.shiftl a k.
Proof. intro. now apply Z.shiftl_nonneg. Qed.

Lemma get_ok (l : list Z) (i : nat) : Forall word_ok l -> word_ok (MT.get l i).
Proof.
  intro H. unfold MT.get. revert i. induction H as [| x t Hx _ IH]; intros [| i]; cbn;
    try (unfold word_ok; lia); auto.
Qed.

Lemma set_ok (l : list Z) (i : nat) (v : Z) :
  Forall word_ok l -> word_ok v -> Forall word_ok (MT.set l i v).
Proof.
  intros H Hv. revert i. induction H as [| x t Hx Ht IH]; intros [| i]; cbn; constructor; auto.
Qed.

Lemma temper_ok (y : Z) : word_ok y -> word_ok (MT.temper y).
Proof.
  intro Hy. unfold MT.temper.
  assert (H1 : word_ok (Z.lxor y (Z.shiftr y 11))) by (apply lxor_ok; [exact Hy | apply shiftr_ok; [exact Hy | lia]]).
  set (y1 := Z.lxor y (Z.shiftr y 11)) in *.
  assert (H2 : word_ok (Z.lxor y1 (Z.land (Z.shiftl y1 7) 2636928640))).
  { apply lxor_ok; [exact H1 | apply land_ok; [apply shiftl_nonneg; apply H1 | unfold word_ok; lia]]. }
  set (y2 := Z.lxor y1 (Z.land (Z.shiftl y1 7) 2636928640)) in *.
  assert (H3 : word_ok (Z.lxor y2 (Z.land (Z.shiftl y2 15) 4022730752))).
  { apply lxor_ok; [exact H2 | apply land_ok; [apply shiftl_nonneg; apply H2 | unfold word_ok; lia]]. }
  set (y3 := Z.lxor y2 (Z.land (Z.shiftl y2 15) 4022730752)) in *.
  apply lxor_ok; [exact H3 | apply shiftr_ok; [exact H3 | lia]].
Qed.

Lemma twist_loop_ok (l : list Z) (kk fuel : nat) :
  Forall word_ok l -> Forall word_ok (MT.twist_loop l kk fuel).
Proof.
  revert l kk. induction fuel as [| f IH]; intros l kk H; cbn [MT.twist_loop]; [exact H |].
  cbv zeta.
  apply IH, set_ok; [exact H |].
  assert (Hy : word_ok (Z.lor (Z.land (MT.get l kk) MT.UPPER_MASK)
                              (Z.land (MT.get l ((kk + 1) mod MT.N)) MT.LOWER_MASK))).
  { apply lor_ok; apply land_ok;
      solve [apply get_ok, H | unfold word_ok, MT.UPPER_MASK, MT.LOWER_MASK; lia
             | pose proof (get_ok l kk H); pose proof (get_ok l ((kk + 1) mod MT.N) H);
               unfold word_ok in *; lia]. }
  apply lxor_ok; [apply lxor_ok; [apply get_ok, H | apply shiftr_ok; [exact Hy | lia]] |].
  unfold MT.mag01. destruct (Z.testbit _ 0); unfold word_ok, MT.MATRIX_A; lia.
Qed.

Lemma twist_ok (l : list Z) : Forall word_ok l -> Forall word_ok (MT.twist l).
Proof. unfold MT.twist. apply twist_loop_ok. Qed.

Lemma genrand_ok (st : MT.state) :
  words_ok st -> word_ok (fst (MT.genrand_uint32 st)) /\ words_ok (snd (MT.genrand_uint32 st)).
Proof.
  intro H. unfold MT.genrand_uint32, words_ok in *.
  destruct (MT.N <=? MT.mti st)%nat.
  - pose proof (twist_ok (MT.mt st) H) as Ht.
    revert Ht. generalize (MT.twist (MT.mt st)) as l. intros l Hl.
    split; [apply temper_ok, get_ok, Hl | exact Hl].
  - revert H. generalize (MT.mti st) as i. generalize (MT.mt st) as l. intros l i Hl.
    split; [apply temper_ok, get_ok, Hl | exact Hl].
Qed.

Lemma init_genrand_from_ok (p : Z) (i fuel : nat) : Forall word_ok (MT.init_genrand_from p i fuel).
Proof.
  revert p i. induction fuel as [| f IH]; intros; cbn; constructor; [apply mask_ok | apply IH].
Qed.

Lemma iba_loop1_ok (l key : list Z) (i j k : nat) :
  Forall word_ok l -> Forall word_ok (fst (MT.iba_loop1 l key i j k)).
Proof.
  revert l i j. induction k as [| k IH]; intros l i j H; cbn [MT.iba_loop1 fst]; [exact H |].
  cbv zeta.
  set (l1 := MT.set l i _).
  assert (H1 : Forall word_ok l1) by (apply set_ok; [exact H | apply mask_ok]).
  destruct (MT.N <=? S i)%nat; apply IH; [apply set_ok; [exact H1 | apply get_ok, H1] | exact H1].
Qed.

Lemma iba_loop2_ok (l : list Z) (i k : nat) :
  Forall word_ok l -> Forall word_ok (MT.iba_loop2 l i k).
Proof.
  revert l i. induction k as [| k IH]; intros l i H; cbn [MT.iba_loop2]; [exact H |].
  cbv zeta.
  set (l1 := MT.set l i _).
  assert (H1 : Forall word_ok l1) by (apply set_ok; [exact H | apply mask_ok]).
  destruct (MT.N <=? S i)%nat; apply IH; [apply set_ok; [exact H1 | apply get_ok, H1] | exact H1].
Qed.

Lemma init_by_array_ok (key : list Z) : words_ok (MT.init_by_array key).
Proof.
  unfold MT.init_by_array, words_ok.
  assert (H0 : Forall word_ok (MT.init_genrand 19650218)).
  { unfold MT.init_genrand. constructor; [apply mask_ok | apply init_genrand_from_ok]. }
  revert H0. generalize (MT.init_genrand 19650218) as l0. intros l0 H0'.
  pose proof (iba_loop1_ok l0 key 1 0 (Nat.max MT.N (length key)) H0') as H1.
  destruct (MT.iba_loop1 l0 key 1 0 _) as [l1 i1]. cbn [fst] in H1. cbn [MT.mt].
  apply set_ok; [apply iba_loop2_ok, H1 | unfold word_ok; lia].
Qed.

Lemma Random_ok (seed : option Z) (entropy : list Z) : words_ok (PyRandom.Random seed entropy).
Proof. destruct seed; apply init_by_array_ok. Qed.

End Words.

(* ================================================================= *)
(** ** Ranges of the draws

    From a well-formed state: [random()] is in [[0, 1)], [uniform(a, b)]
    in [[a, b]] and [randint(a, b)] at least [a].  (No upper bound is
    derived for [randint]: the rejection loop of [randbelow] is bounded by
    fuel.) *)

Module Draws.
Import PyRandom RngInv Words.
Open Scope Q_scope.


Lemma triple_ret {A} (a : A) (P : A -> Prop) : P a -> triple (ret a) P.
Proof. intros H st Hs. split; assumption. Qed.

Lemma triple_bind {A B} (m : RNG A) (k : A -> RNG B) (P : A -> Prop) (Q : B -> Prop) :
  triple m P -> (forall a, P a -> triple (k a) Q) -> triple (bind m k) Q.
Proof.
  intros Hm Hk st Hs. unfold bind.
  destruct (Hm st Hs) as [Ha Hs1]. destruct (m st) as [a st1]. cbn in *.
  exact (Hk a Ha st1 Hs1).
Qed.

Lemma genrand_triple : triple genrand_uint32 word_ok.
Proof. intros st Hs. exact (genrand_ok st Hs). Qed.

Lemma random_triple : triple random (fun r => 0 <= r /\ r < 1).
Proof.
  unfold random. apply (triple_bind _ _ _ _ genrand_triple). intros a Ha.
  apply (triple_bind _ _ _ _ genrand_triple). intros b Hb.
  apply triple_ret.
  assert (Hx : (0 <= Z.shiftr a 5 < 2 ^ 27)%Z).
  { unfold word_ok in Ha. rewrite Z.shiftr_div_pow2 by lia.
    split; [apply Z.div_pos; lia | apply Z.div_lt_upper_bound; lia]. }
  assert (Hy : (0 <= Z.shiftr b 6 < 2 ^ 26)%Z).
  { unfold word_ok in Hb. rewrite Z.shiftr_div_pow2 by lia.
    split; [apply Z.div_pos; lia | apply Z.div_lt_upper_bound; lia]. }
  revert Hx Hy. generalize (Z.shiftr a 5) as x. generalize (Z.shiftr b 6) as y.
  intros y x Hx Hy. unfold Qle, Qlt; cbn. lia.
Qed.

Lemma uniform_triple (a b : Q) : a <= b -> triple (uniform a b) (fun u => a <= u /\ u <= b).
Proof.
  intro Hab. unfold uniform. apply (triple_bind _ _ _ _ random_triple). intros r [H0 H1].
  apply triple_ret.
  assert (Hd : 0 <= b - a) by Lqa.lra.
  split.
  - assert (0 <= (b - a) * r) by (apply Qmult_le_0_compat; assumption). Lqa.lra.
  - assert ((b - a) * r <= (b - a) * 1) by (rewrite (Qmult_comm (b - a) r), (Qmult_comm (b - a) 1); apply Qmult_le_compat_r; [Lqa.lra | exact Hd]).
    Lqa.lra.
Qed.

Lemma getrandbits_triple (k : Z) : triple (getrandbits k) (fun r => (0 <= r)%Z).
Proof.
  unfold getrandbits. apply (triple_bind _ _ _ _ genrand_triple). intros y Hy.
  apply triple_ret. apply Z.shiftr_nonneg. unfold word_ok in Hy. lia.
Qed.

Lemma randbelow_loop_triple (fuel : nat) (n k : Z) :
  triple (randbelow_loop fuel n k) (fun r => (0 <= r)%Z).
Proof.
  induction fuel as [| f IH]; cbn [randbelow_loop];
    apply (triple_bind _ _ _ _ (getrandbits_triple k)); intros r Hr.
  - apply triple_ret, Hr.
  - destruct (r <? n)%Z; [apply triple_ret, Hr | exact IH].
Qed.

Lemma randint_triple (a b : Z) : triple (randint a b) (fun r => (a <= r)%Z).
Proof.
  unfold randint, randbelow. apply (triple_bind _ _ _ _ (randbelow_loop_triple _ _ _)).
  intros r Hr. apply triple_ret. lia.
Qed.

Lemma triple_weaken {A} (m : RNG A) (P Q : A -> Prop) :
  (forall a, P a -> Q a) -> triple m P -> triple m Q.
Proof. intros HPQ Hm st Hs. destruct (Hm st Hs). split; auto. Qed.
End Draws.

(* ================================================================= *)
(** ** Truncated products of counts and rates *)

Module RowLemmas.
Import PyFacts.
Open Scope Q_scope.

Lemma Zle_Q (a b : Z) : (a <= b)%Z -> inject_Z a <= inject_Z b.
Proof. intro H. now rewrite <- Zle_Qle. Qed.

Lemma Q_Zle (a b : Z) : inject_Z a <= inject_Z b -> (a <= b)%Z.
Proof. intro H. now rewrite Zle_Qle. Qed.

Lemma mul_le_r (v r c : Q) : 0 <= v -> r <= c -> v * r <= c * v.
Proof. intros Hv Hr. rewrite (Qmult_comm v r). now apply Qmult_le_compat_r. Qed.

Lemma pos_int_floor (x : Q) : 0 <= x -> Ext.pos_int x = Qfloor x.
Proof.
  intro H. unfold Ext.pos_int. rewrite int_nonneg by exact H.
  assert (Hf0 : (0 <= Qfloor x)%Z) by (change 0%Z with (Qfloor 0); now apply Qfloor_resp_le).
  lia.
Qed.

(** [max(0, int(v * r))] is at most [c * v] when [0 <= r <= c]. *)
Lemma pos_int_le_mul (v : Z) (r c : Q) :
  (0 <= v)%Z -> 0 <= r -> r <= c ->
  inject_Z (Ext.pos_int (inject_Z v * r)) <= c * inject_Z v.
Proof.
  intros Hv Hr Hc. apply Zle_Q in Hv. change (inject_Z 0) with 0 in Hv.
  assert (H0 : 0 <= inject_Z v * r) by (apply Qmult_le_0_compat; assumption).
  rewrite pos_int_floor by exact H0.
  eapply Qle_trans; [apply Qfloor_le | apply mul_le_r; assumption].
Qed.

(** ... hence at most [v] when [c <= 1]. *)
Lemma pos_int_le_count (v : Z) (r : Q) :
  (0 <= v)%Z -> 0 <= r -> r <= 1 -> (Ext.pos_int (inject_Z v * r) <= v)%Z.
Proof.
  intros Hv Hr H1. apply Q_Zle.
  eapply Qle_trans; [apply (pos_int_le_mul v r 1); assumption |].
  rewrite Qmult_1_l. apply Qle_refl.
Qed.

(** [max(0, int(v * u))] is at least [k * v] when [u >= c] and
    [k * v + 1 <= c * v]. *)
Lemma pos_int_lb (v : Z) (u c k : Q) :
  (0 <= v)%Z -> 0 <= c -> c <= u -> k * inject_Z v + 1 <= c * inject_Z v ->
  k * inject_Z v <= inject_Z (Ext.pos_int (inject_Z v * u)).
Proof.
  intros Hv Hc Hu Hk. apply Zle_Q in Hv. change (inject_Z 0) with 0 in Hv.
  assert (H1 : c * inject_Z v <= inject_Z v * u) by (rewrite (Qmult_comm (inject_Z v) u); apply Qmult_le_compat_r; assumption).
  assert (H0 : 0 <= inject_Z v * u).
  { eapply Qle_trans; [| exact H1]. now apply Qmult_le_0_compat. }
  rewrite pos_int_floor by exact H0.
  pose proof (floor_lower (inject_Z v * u)). Lqa.lra.
Qed.

Lemma pos_int_ge_const (x : Q) (n : Z) : (0 <= n)%Z -> inject_Z n <= x -> (n <= Ext.pos_int x)%Z.
Proof.
  intros Hn Hx. apply Zle_Q in Hn. change (inject_Z 0) with 0 in Hn.
  rewrite pos_int_floor by Lqa.lra.
  rewrite <- (Qfloor_Z n). now apply Qfloor_resp_le.
Qed.

Lemma reach_le (imp x : Z) : (1 <= imp)%Z -> (Z.max 1 (imp / Z.max 1 x) <= imp)%Z.
Proof.
  intro H. apply Z.max_lub; [exact H |].
  apply Z.div_le_upper_bound; [lia | nia].
Qed.

Lemma int_inject_Z (z : Z) : Py.int (inject_Z z) = z.
Proof.
  unfold Py.int. destruct (Qle_bool 0 (inject_Z z)); [apply Qfloor_Z |].
  rewrite <- inject_Z_opp, Qfloor_Z. lia.
Qed.

Lemma round_ge_1 (x : Q) : 1 <= x -> (1 <= Py.round x)%Z.
Proof.
  intro H. unfold Py.round.
  assert (Hf : (1 <= Qfloor x)%Z) by (change 1%Z with (Qfloor 1); now apply Qfloor_resp_le).
  destruct (Qle_bool _ _); [destruct (Qeq_bool _ _); [destruct (Z.even _) |] |]; lia.
Qed.

Lemma round_le (x : Q) : (Py.round x <= Qfloor x + 1)%Z.
Proof.
  unfold Py.round.
  destruct (Qle_bool _ _); [destruct (Qeq_bool _ _); [destruct (Z.even _) |] |]; lia.
Qed.

(** A computed rate [if v <= 0 then 0 else n / v]. *)
Lemma ratio_bounds (n v : Z) (c : Q) :
  (0 <= n)%Z -> 0 <= c -> inject_Z n <= c * inject_Z v ->
  0 <= (if (v <=? 0)%Z then 0 else inject_Z n / inject_Z v) <= c.
Proof.
  intros Hn Hc H. destruct (v <=? 0)%Z eqn:E; [split; [apply Qle_refl | exact Hc] |].
  apply Z.leb_gt in E.
  assert (Hv : 0 < inject_Z v) by (change 0 with (inject_Z 0); now rewrite <- Zlt_Qlt).
  apply Zle_Q in Hn. change (inject_Z 0) with 0 in Hn.
  split.
  - apply Qle_shift_div_l; [exact Hv |]. rewrite Qmult_0_l. exact Hn.
  - apply Qle_shift_div_r; [exact Hv |]. Lqa.lra.
Qed.

End RowLemmas.

(* ================================================================= *)
(** ** Bounds on one record of [generate_raw_metrics] *)

Module ExtDraws.
Import PyRandom RngInv Words Draws PyFacts RowLemmas.
Open Scope Q_scope.

Ltac draw_step :=
  match goal with
  | |- triple (bind (uniform ?a ?b) _) _ =>
      apply (triple_bind _ _ _ _ (uniform_triple a b ltac:(vm_compute; discriminate)));
      intros ? [? ?]; cbv beta zeta
  | |- triple (bind (randint ?a ?b) _) _ =>
      apply (triple_bind _ _ _ _ (randint_triple a b)); intros ? ?; cbv beta zeta
  | |- triple (ret _) _ => apply triple_ret
  end.

Ltac qc := vm_compute; discriminate.

Ltac rate_le :=
  lazymatch goal with
  | |- Py.fmax _ _ <= _ => apply fmax_le; rate_le
  | |- Py.fmin _ _ <= _ =>
      first [ solve [eapply Qle_trans; [apply fmin_le_l | rate_le]]
            | solve [eapply Qle_trans; [apply fmin_le_r | rate_le]] ]
  | |- _ <= _ => first [ assumption | solve [qc] ]
  end.

Ltac rate_ge0 :=
  first [ solve [eapply Qle_trans; [| apply le_fmax_l]; qc]
        | solve [eapply Qle_trans; [| eassumption]; qc] ].

Ltac count_le :=
  apply pos_int_le_mul; [apply pos_int_nonneg | rate_ge0 | rate_le].

Lemma draw_metrics_facts (cid h : Z) (f : Q) (sd : option Z) :
  triple (Ext.draw_metrics cid h f sd) (fun m =>
    let imp := inject_Z (Ext.impressions m) in
    let vs := inject_Z (Ext.video_starts m) in
    let req := inject_Z (Ext.requests m) in
    ((0 <= Ext.requests m) /\ (0 <= Ext.responses m) /\ (0 <= Ext.eligible_impressions m) /\
     (0 <= Ext.auctions_won m) /\ (0 <= Ext.impressions m) /\ (0 <= Ext.viewable_impressions m) /\
     (0 <= Ext.audible_impressions m) /\ (0 <= Ext.video_starts m) /\ (0 <= Ext.video_q25 m) /\
     (0 <= Ext.video_q50 m) /\ (0 <= Ext.video_q75 m) /\ (0 <= Ext.video_q100 m) /\
     (0 <= Ext.skips m) /\ (0 <= Ext.clicks m) /\ (0 <= Ext.qr_scans m) /\
     (0 <= Ext.interactive_engagements m) /\ (0 <= Ext.error_count m) /\
     (0 <= Ext.timeout_count m) /\ (1 <= Ext.reach m) /\ (1 <= Ext.frequency m <= 10) /\
     (0 <= Ext.spend m))%Z /\
    inject_Z (Ext.viewable_impressions m) <= 0.99 * imp /\
    inject_Z (Ext.audible_impressions m) <= 0.95 * imp /\
    vs <= 0.99 * imp /\
    inject_Z (Ext.video_q25 m) <= 0.98 * vs /\
    inject_Z (Ext.video_q100 m) <= 0.70 * vs /\
    inject_Z (Ext.skips m) <= 0.60 * vs /\
    inject_Z (Ext.clicks m) <= 0.05 * imp /\
    inject_Z (Ext.qr_scans m) <= 0.006 * imp /\
    inject_Z (Ext.interactive_engagements m) <= 0.02 * imp /\
    inject_Z (Ext.error_count m) <= 0.004 * req /\
    inject_Z (Ext.timeout_count m) <= 0.003 * req /\
    ((1 <= Ext.impressions m)%Z -> (Ext.reach m <= Ext.impressions m)%Z) /\
    (1 # 2 <= f -> (500 <= Ext.impressions m)%Z /\
       (9 # 10) * req <= inject_Z (Ext.responses m) /\
       (8 # 10) * inject_Z (Ext.responses m) <= inject_Z (Ext.eligible_impressions m) /\
       (8 # 10) * inject_Z (Ext.eligible_impressions m) <= inject_Z (Ext.auctions_won m))).
Proof.
  unfold Ext.draw_metrics. repeat draw_step.
  cbn [Ext.requests Ext.responses Ext.eligible_impressions Ext.auctions_won Ext.impressions
       Ext.viewable_impressions Ext.audible_impressions Ext.video_starts Ext.video_q25
       Ext.video_q50 Ext.video_q75 Ext.video_q100 Ext.skips Ext.clicks Ext.qr_scans
       Ext.interactive_engagements Ext.error_count Ext.timeout_count Ext.reach
       Ext.frequency Ext.spend].
  unfold Ext.audibility_of.
  split; [repeat split; try apply pos_int_nonneg |].
  all: try lia.
  - rewrite int_inject_Z. apply round_ge_1. eapply Qle_trans; [| apply le_fmax_l]. qc.
  - rewrite int_inject_Z. pose proof (round_le (Py.fmax 1.0 (Py.fmin 5.0 (a16 * (1 + 0.12 * Py.fmax 0 (f - 1)))))) as Hr.
    assert (Hfl : (Qfloor (Py.fmax 1.0 (Py.fmin 5.0 (a16 * (1 + 0.12 * Py.fmax 0 (f - 1))))) <= 5)%Z).
    { rewrite <- (Qfloor_Z 5). apply Qfloor_resp_le. rate_le. }
    lia.
  - destruct (0 <? Ext.pos_int (inject_Z a * f))%Z eqn:E; [| lia].
    apply Z.ltb_lt in E.
    assert (Haf : 0 <= inject_Z a * f).
    { destruct (Qlt_le_dec (inject_Z a * f) 0) as [Hn | Hn]; [| exact Hn].
      pose proof (int_neg _ Hn). unfold Ext.pos_int in E. lia. }
    assert (Ha : 1000 <= inject_Z a) by (apply (Zle_Q 1000); assumption).
    assert (Hf0 : 0 <= f).
    { destruct (Qlt_le_dec f 0) as [Hn | Hn]; [| exact Hn].
      assert (f * inject_Z a < 0 * inject_Z a) by (apply Qmult_lt_compat_r; Lqa.lra).
      Lqa.lra. }
    assert (Hc : 0 <= inject_Z a17 * a18 * (0.95 + 0.1 * Py.fmin 1.5 f)).
    { assert (0 <= Py.fmin 1.5 f) by (apply le_fmin; [qc | exact Hf0]).
      assert (1200 <= inject_Z a17) by (apply (Zle_Q 1200); assumption).
      apply Qmult_le_0_compat; [apply Qmult_le_0_compat |]; Lqa.lra. }
    apply Z.div_pos; [| lia]. apply Z.mul_nonneg_nonneg; [apply pos_int_nonneg |].
    rewrite int_nonneg by exact Hc. change 0%Z with (Qfloor 0). now apply Qfloor_resp_le.
  - do 11 (split; [count_le |]).
    split; [intro H1'; apply reach_le; exact H1' |].
    intro Hf.
      assert (Ha : 1000 <= inject_Z a) by (apply (Zle_Q 1000); assumption).
      assert (Himp : (500 <= Ext.pos_int (inject_Z a * f))%Z).
      { apply pos_int_ge_const; [lia |].
        apply Qle_trans with (1000 * (1 # 2)); [qc |].
        apply Qmult_le_compat_nonneg; split; (qc || assumption). }
      set (imp := Ext.pos_int (inject_Z a * f)) in *.
      assert (Hreq : (550 <= Ext.pos_int (inject_Z imp * a0))%Z).
      { apply pos_int_ge_const; [lia |].
        apply Qle_trans with (500 * 1.1); [qc |].
        apply Qmult_le_compat_nonneg; split; try qc; try assumption. apply (Zle_Q 500); exact Himp. }
      set (req := Ext.pos_int (inject_Z imp * a0)) in *.
      assert (Hreq' := Zle_Q _ _ Hreq).
      assert (Hresp : (9 # 10) * inject_Z req <= inject_Z (Ext.pos_int (inject_Z req * a1))).
      { apply pos_int_lb with (c := 0.92); [lia | qc | assumption |].
        change (inject_Z 550) with 550 in Hreq'. Lqa.lra. }
      set (resp := Ext.pos_int (inject_Z req * a1)) in *.
      assert (Hresp' : 495 <= inject_Z resp) by (change (inject_Z 550) with 550 in Hreq'; Lqa.lra).
      assert (Hel : (8 # 10) * inject_Z resp <= inject_Z (Ext.pos_int (inject_Z resp * a2))).
      { apply pos_int_lb with (c := 0.85); [apply Q_Zle; change (inject_Z 0) with 0; Lqa.lra | qc | assumption |].
        Lqa.lra. }
      set (el := Ext.pos_int (inject_Z resp * a2)) in *.
      assert (Hau : (8 # 10) * inject_Z el <= inject_Z (Ext.pos_int (inject_Z el * a3))).
      { apply pos_int_lb with (c := 0.90); [apply Q_Zle; change (inject_Z 0) with 0; Lqa.lra | qc | assumption |].
        Lqa.lra. }
      repeat split; assumption.
Qed.
End ExtDraws.

(* ================================================================= *)
(** ** From the draws of one hour to the rows of a flight *)

Module Lift.
Import PyRandom RngInv Words Draws.

Lemma generate_raw_metrics_triple (cid h : Z) (f : Q) (sd : option Z) (P : Ext.metrics -> Prop) :
  triple (Ext.draw_metrics cid h f sd) P -> triple (Ext.generate_raw_metrics cid h f sd) P.
Proof.
  intros H st Hs. unfold Ext.generate_raw_metrics.
  destruct sd as [a |].
  - exact (H _ (init_by_array_ok (MT.seed_key a))).
  - exact (H st Hs).
Qed.

Lemma ext_rows_triple tf (cid : Z) (seed : option Z) (s e : Z) (hours : list Z)
  (P : Ext.metrics * Z -> Prop) :
  (forall h, triple (Ext.draw_metrics cid h (tf s h e) seed)
                    (fun m => P (m, Py.int (Ext.avg_watch_time_seconds m)))) ->
  triple (Orchestrator.ext_rows tf cid seed s e hours) (Forall P).
Proof.
  intro H. induction hours as [| h hs IH]; cbn [Orchestrator.ext_rows].
  - apply triple_ret. constructor.
  - apply (triple_bind _ _ _ _ (generate_raw_metrics_triple _ _ _ _ _ (H h))). intros m Hm.
    apply (triple_bind _ _ _ _ IH). intros rs Hrs.
    apply triple_ret. constructor; assumption.
Qed.

Lemma ext_rows_for_Forall tf cid seed ent fl (P : Ext.metrics * Z -> Prop) :
  (forall s e h, triple (Ext.draw_metrics cid h (tf s h e) seed)
                        (fun m => P (m, Py.int (Ext.avg_watch_time_seconds m)))) ->
  Forall P (Regen.ext_rows_for tf cid seed ent fl).
Proof.
  intro H. unfold Regen.ext_rows_for.
  apply (ext_rows_triple tf cid seed _ _ _ P (fun h => H _ _ h)). apply Random_ok.
Qed.

Lemma triple_and_any {A} (m : RNG A) (P : A -> Prop) (R : A -> Prop) :
  triple m P -> (forall st, R (fst (m st))) -> triple m (fun a => P a /\ R a).
Proof. intros H HR st Hs. destruct (H st Hs). split; [split |]; auto. Qed.

Lemma triple_conseq {A} (m : RNG A) (P R : A -> Prop) :
  triple m P -> (forall a, P a -> R a) -> triple m R.
Proof. intros H HR st Hs. destruct (H st Hs). split; auto. Qed.

End Lift.

(* ================================================================= *)
(** ** The rows of [generate_hourly_performance_ext] *)

Module ExtRows.
Import PyRandom RngInv Words Draws PyFacts RowLemmas ExtDraws Lift Ext ExtFields Store.
Open Scope Q_scope.

Lemma frac_le (a b : Z) (c : Q) :
  inject_Z a <= c * inject_Z b -> (0 <= b)%Z -> c <= 1 -> (a <= b)%Z.
Proof.
  intros H Hb Hc. apply Q_Zle. apply Zle_Q in Hb. change (inject_Z 0) with 0 in Hb.
  eapply Qle_trans; [exact H |].
  rewrite <- (Qmult_1_l (inject_Z b)) at 2. apply Qmult_le_compat_r; assumption.
Qed.

(** The estimated watch time of a record with monotone quartiles lies in
    [[0, 30]]. *)
Lemma avg_watch_range (m : metrics) :
  (video_q25 m <= video_starts m)%Z -> (video_q50 m <= video_q25 m)%Z ->
  (video_q75 m <= video_q50 m)%Z -> (video_q100 m <= video_q75 m)%Z ->
  (0 <= video_q100 m)%Z ->
  0 <= avg_watch_time_seconds m <= 30.
Proof.
  intros H25 H50 H75 H100 H0. unfold avg_watch_time_seconds.
  destruct (video_starts m <=? 0)%Z eqn:E; [split; [apply Qle_refl | qc] |].
  apply Z.leb_gt in E.
  rewrite !Z.max_r by lia.
  assert (Hv : 0 < inject_Z (video_starts m)) by (change 0 with (inject_Z 0); now rewrite <- Zlt_Qlt).
  unfold Z.sub; rewrite ?inject_Z_plus, ?inject_Z_opp.
  assert (Ha := Zle_Q _ _ H25). assert (Hb := Zle_Q _ _ H50).
  assert (Hc := Zle_Q _ _ H75). assert (He := Zle_Q _ _ H100).
  assert (He0 := Zle_Q _ _ H0). change (inject_Z 0) with 0 in He0.
  split.
  - apply Qle_shift_div_l; [exact Hv |]. Lqa.lra.
  - apply Qle_shift_div_r; [exact Hv |]. Lqa.lra.
Qed.

Lemma int_avg_range (m : metrics) :
  (video_q25 m <= video_starts m)%Z -> (video_q50 m <= video_q25 m)%Z ->
  (video_q75 m <= video_q50 m)%Z -> (video_q100 m <= video_q75 m)%Z ->
  (0 <= video_q100 m)%Z ->
  (0 <= Py.int (avg_watch_time_seconds m) <= 30)%Z.
Proof.
  intros. destruct (avg_watch_range m) as [A B]; try assumption.
  rewrite int_nonneg by exact A.
  split; [change 0%Z with (Qfloor 0) | rewrite <- (Qfloor_Z 30)]; now apply Qfloor_resp_le.
Qed.

Ltac ext_row_facts cid h f seed :=
  eapply triple_conseq;
  [ exact (triple_and_any _ _ _ (draw_metrics_facts cid h f seed)
             (fun st => QuartileProps.draw_metrics_monotone cid h f seed st)) | ];
  cbv beta zeta;
  let m := fresh "m" in
  intros m [[Hz Hq] Hmono];
  destruct Hz as (Hreq0 & Hresp0 & Hel0 & Hau0 & Himp0 & Hview0 & Haud0 & Hvs0 & Hq250 & Hq500
                  & Hq750 & Hq1000 & Hsk0 & Hcl0 & Hqr0 & Hint0 & Herr0 & Hto0 & Hreach1
                  & Hfreq & Hspend0);
  destruct Hq as (Hview & Haud & Hvs & Hq25 & Hq100 & Hsk & Hcl & Hqr & Hint & Herr & Hto
                  & Hreach & Hfun);
  destruct Hmono as (Hm50 & Hm75 & Hm100 & Hm0).

(** X3.  Every record drawn by [generate_raw_metrics] in
    [generate_hourly_performance_ext] satisfies the [Field] constraints of
    [BaseExtendedPerformanceMetrics]: every count is non-negative and
    [1 <= frequency <= 10].  So building the record never fails
    validation, whatever the seed and the temporal factor. *)
Theorem ext_rows_fields_valid (tf : Z -> Z -> Z -> Q) (cid : Z) (seed : option Z)
  (ent : list Z) (fl : flight) :
  Forall (fun r => fields_valid (fst r) = true) (Regen.ext_rows_for tf cid seed ent fl).
Proof.
  apply ext_rows_for_Forall. intros s e h.
  ext_row_facts cid h (tf s h e) seed.
  cbn [fst]. unfold fields_valid.
  rewrite !andb_true_iff, !Z.leb_le. lia.
Qed.

Lemma ext_rows_checks_eq (tf : Z -> Z -> Z -> Q) (cid : Z) (seed : option Z)
  (ent : list Z) (fl : flight) (Htf : forall s h e, 1 # 2 <= tf s h e) :
  Forall (fun r => ext_checks r = Qle_z ((6 # 10) * inject_Z (auctions_won (fst r))) (impressions (fst r)))
         (Regen.ext_rows_for tf cid seed ent fl).
Proof.
  apply ext_rows_for_Forall. intros s e h.
  ext_row_facts cid h (tf s h e) seed.
  destruct (Hfun (Htf s h e)) as (Himp & Hresp & Hel & Hau).
  assert (Hview' := frac_le _ _ _ Hview Himp0 ltac:(qc)).
  assert (Haud' := frac_le _ _ _ Haud Himp0 ltac:(qc)).
  assert (Hvs' := frac_le _ _ _ Hvs Himp0 ltac:(qc)).
  assert (Hq25' := frac_le _ _ _ Hq25 Hvs0 ltac:(qc)).
  assert (Hsk' := frac_le _ _ _ Hsk Hvs0 ltac:(qc)).
  assert (Hcl' := frac_le _ _ _ Hcl Himp0 ltac:(qc)).
  assert (Hqr' := frac_le _ _ _ Hqr Himp0 ltac:(qc)).
  assert (Hint' := frac_le _ _ _ Hint Himp0 ltac:(qc)).
  assert (Hreach' := Hreach ltac:(lia)).
  assert (Hw := int_avg_range m Hq25' Hm50 Hm75 Hm100 Hm0).
  unfold ext_checks, Qle_z. cbn [fst snd].
  repeat match goal with
  | |- context [(?a <=? ?b)%Z] => replace (a <=? b)%Z with true by (symmetry; apply Z.leb_le; lia)
  end.
  repeat match goal with
  | |- context [Qle_bool ?a ?b] => replace (Qle_bool a b) with true by (symmetry; apply Qle_bool_iff; assumption)
  end.
  rewrite ?andb_true_r, ?andb_true_l. reflexivity.
Qed.

(** X4.  When the temporal factor is at least 1/2 at every hour, every row
    of [generate_hourly_performance_ext] passes all the CHECK constraints of
    [CampaignPerformanceExtended] but one.  The row passes them exactly when
    [impressions >= 0.6 * auctions_won]. *)
Theorem ext_rows_checks_except_impressions (tf : Z -> Z -> Z -> Q) (cid : Z) (seed : option Z)
  (ent : list Z) (fl : flight) (Htf : forall s h e, 1 # 2 <= tf s h e) :
  Forall (fun r => ext_checks r = Qle_z ((6 # 10) * inject_Z (auctions_won (fst r))) (impressions (fst r)))
         (Regen.ext_rows_for tf cid seed ent fl).
Proof. exact (ext_rows_checks_eq tf cid seed ent fl Htf). Qed.

(** Witness of X4: the rows of the one-day flight, constant factor 1. *)
Lemma ext_rows_checks_except_impressions_witness :
  Forall (fun r => ext_checks r = Qle_z ((6 # 10) * inject_Z (auctions_won (fst r))) (impressions (fst r)))
         (Regen.ext_rows_for Fixtures.unit_factor 1%Z (Some 42%Z) [] Fixtures.one_day_flight).
Proof.
  exact (ext_rows_checks_except_impressions Fixtures.unit_factor 1%Z (Some 42%Z) [] Fixtures.one_day_flight
           (fun s h e => ltac:(unfold Fixtures.unit_factor, Qle; cbn; lia))).
Defined.

(** X6.  For every row of [generate_hourly_performance_ext], the computed
    rates of [ExtendedPerformanceMetrics] are non-negative and stay within
    the generator's clamps.  The bounds are: viewability 0.99, audibility 0.95,
    video start 0.99, completion 0.70, skip 0.60, ctr 0.05, qr scan 0.006,
    response 0.02, error 0.004 and timeout 0.003.  The average watch time
    lies in [[0, 30]] seconds, whatever the seed and the temporal factor. *)
Theorem ext_rows_rate_caps (tf : Z -> Z -> Z -> Q) (cid : Z) (seed : option Z)
  (ent : list Z) (fl : flight) :
  Forall (fun r =>
    let m := fst r in
    0 <= viewability_rate m <= 0.99 /\ 0 <= audibility_rate m <= 0.95 /\
    0 <= video_start_rate m <= 0.99 /\ 0 <= video_completion_rate m <= 0.70 /\
    0 <= video_skip_rate m <= 0.60 /\ 0 <= ctr m <= 0.05 /\
    0 <= qr_scan_rate m <= 0.006 /\ 0 <= response_rate m <= 0.02 /\
    0 <= error_rate m <= 0.004 /\ 0 <= timeout_rate m <= 0.003 /\
    0 <= avg_watch_time_seconds m <= 30)
    (Regen.ext_rows_for tf cid seed ent fl).
Proof.
  apply ext_rows_for_Forall. intros s e h.
  ext_row_facts cid h (tf s h e) seed.
  assert (Hq25' := frac_le _ _ _ Hq25 Hvs0 ltac:(qc)).
  cbn [fst].
  unfold viewability_rate, audibility_rate, video_start_rate, video_completion_rate,
    video_skip_rate, ctr, qr_scan_rate, response_rate, error_rate, timeout_rate.
  do 10 (split; [apply ratio_bounds; [assumption | qc | assumption] |]).
  apply avg_watch_range; assumption.
Qed.

End ExtRows.

(* ================================================================= *)
(** ** The auctions won *)

Module AuctionFunnel.
Import PyRandom RngInv Draws PyFacts RowLemmas ExtDraws Lift Fixtures RunFacts.
Open Scope Q_scope.

(** [max(0, int(v * u))] exceeds [v] when [v >= 430] and
    [u >= 1 + 1/430]. *)
Lemma pos_int_exceeds (v : Z) (u : Q) :
  (430 <= v)%Z -> 1 + (1 # 430) <= u -> (v < Ext.pos_int (inject_Z v * u))%Z.
Proof.
  intros Hv Hu.
  assert (H : (v + 1 <= Ext.pos_int (inject_Z v * u))%Z); [| lia].
  apply pos_int_ge_const; [lia |].
  apply Zle_Q in Hv. rewrite inject_Z_plus.
  assert (Hm : (1 + (1 # 430)) * inject_Z v <= u * inject_Z v).
  { apply Qmult_le_compat_r; [exact Hu | change (inject_Z 430) with 430 in Hv; Lqa.lra]. }
  change (inject_Z 430) with 430 in Hv. change (inject_Z 1) with 1. Lqa.lra.
Qed.

(** [max(0, int(v * u))] is at least [m] when [v >= n] and
    [m <= n * u]. *)
Lemma pos_int_scale_ge (v n : Z) (u : Q) (m : Z) :
  (n <= v)%Z -> 0 <= u -> (0 <= m)%Z -> inject_Z m <= inject_Z n * u ->
  (m <= Ext.pos_int (inject_Z v * u))%Z.
Proof.
  intros Hnv Hu Hm Hmn. apply pos_int_ge_const; [exact Hm |].
  eapply Qle_trans; [exact Hmn |]. apply Qmult_le_compat_r; [apply Zle_Q, Hnv | exact Hu].
Qed.

(** Every record of [generate_raw_metrics] has
    [auctions_won = max(0, int(eligible_impressions * u))] for the value
    [u] drawn by [uniform(0.90, 1.02)]. *)
Lemma draw_metrics_auctions (cid h : Z) (f : Q) (sd : option Z) :
  triple (Ext.draw_metrics cid h f sd) (fun m =>
    exists u, (0.90 <= u <= 1.02) /\
      Ext.auctions_won m = Ext.pos_int (inject_Z (Ext.eligible_impressions m) * u) /\
      inject_Z (Ext.auctions_won m) <= 1.02 * inject_Z (Ext.eligible_impressions m)).
Proof.
  unfold Ext.draw_metrics. repeat draw_step.
  cbn [Ext.auctions_won Ext.eligible_impressions].
  eexists. split; [| split; [reflexivity |]].
  - split; assumption.
  - apply pos_int_le_mul; [apply pos_int_nonneg | rate_ge0 | assumption].
Qed.

(** The first hour drawn from [Random(15)]: for every factor of at least
    one half, [auctions_won > eligible_impressions] ([u] is about
    1.018). *)
Lemma seed15_first_hour_auctions (cid hour : Z) (f : Q) :
  1 # 2 <= f ->
  (Ext.eligible_impressions (fst (Ext.draw_metrics cid hour f (Some 15%Z) (MT.seed_int 15))) <
   Ext.auctions_won (fst (Ext.draw_metrics cid hour f (Some 15%Z) (MT.seed_int 15))))%Z.
Proof.
  intro Hf.
  cbv [Ext.draw_metrics PyRandom.bind PyRandom.ret]. run_draws.
  cbn [fst Ext.eligible_impressions Ext.auctions_won].
  apply pos_int_exceeds; [| qc].
  apply pos_int_scale_ge with (n := 506%Z); [| qc | lia | qc].
  apply pos_int_scale_ge with (n := 550%Z); [| qc | lia | qc].
  apply pos_int_scale_ge with (n := 500%Z); [| qc | lia | qc].
  apply pos_int_ge_const; [lia |].
  apply Qle_trans with (1000 * (1 # 2)); [qc |].
  apply Qmult_le_compat_nonneg; split; (qc || assumption).
Qed.


(** With an int seed, the first row built for a flight is drawn from a
    fresh [Random(seed)] at the flight's first hour. *)
Lemma ext_rows_for_first (tf : Z -> Z -> Z -> Q) (cid a : Z) (ent : list Z) (fl : Store.flight)
  (h0 : Z) (hs : list Z) :
  Time.hours_between (Time.start_of_day (Store.start_date fl)) (Time.last_hour_of_day (Store.end_date fl))
    = h0 :: hs ->
  exists r rs, Regen.ext_rows_for tf cid (Some a) ent fl = r :: rs /\
    fst r = fst (Ext.draw_metrics cid h0
                   (tf (Time.start_of_day (Store.start_date fl)) h0 (Time.last_hour_of_day (Store.end_date fl)))
                   (Some a) (MT.seed_int a)).
Proof.
  intro H. unfold Regen.ext_rows_for. cbv zeta. rewrite H.
  destruct (ext_rows_head tf cid (Some a) (Time.start_of_day (Store.start_date fl))
              (Time.last_hour_of_day (Store.end_date fl)) h0 hs
              (PyRandom.Random (Some a) ent)) as [rs Hrs].
  rewrite Hrs. eexists _, rs. split; [reflexivity |].
  cbn [fst]. rewrite generate_raw_metrics_seeded. reflexivity.
Qed.


End AuctionFunnel.

(* ================================================================= *)
(** ** The fill rate *)

Module StoredRates.
Import Store Regen StoreProps RngInv Draws Lift ExtDraws Fixtures.
Open Scope Q_scope.

Lemma fill_rate_cases (m : Ext.metrics) :
  Ext.fill_rate m = if (0 <? Ext.requests m)%Z
                    then inject_Z (Ext.eligible_impressions m) / inject_Z (Ext.requests m)
                    else 0.
Proof.
  unfold Ext.fill_rate.
  destruct (Z.leb_spec (Ext.requests m) 0), (Z.ltb_spec 0 (Ext.requests m)); try lia; reflexivity.
Qed.

Lemma fill_rate_safe_div (m : Ext.metrics) :
  (0 <= Ext.requests m)%Z ->
  Ext.fill_rate m == Ext.safe_div (inject_Z (Ext.eligible_impressions m))
                                  (inject_Z (Ext.requests m)) 0.
Proof.
  intros Hm. unfold Ext.fill_rate, Ext.safe_div.
  destruct (Z.leb_spec (Ext.requests m) 0) as [Hle | Hgt].
  + assert (E : Ext.requests m = 0%Z) by lia. rewrite E. reflexivity.
  + destruct (Qeq_bool (inject_Z (Ext.requests m)) 0) eqn:E; [| reflexivity].
    apply Qeq_bool_iff in E. unfold Qeq in E. cbn in E. lia.
Qed.

(** A run that returns stores no row: its count is 0 and its tables are
    sub-lists of the former ones. *)
Lemma raw_run_stores_nothing tf cid seed ent replace d d' n :
  Orchestrator.generate_hourly_performance_raw tf cid seed ent replace d = Some (d', n) ->
  n = 0%Z /\ incl (campaign_performance d') (campaign_performance d).
Proof.
  rewrite raw_run_eq.
  destruct (get_campaign_and_flight d cid) as [[fl |] |];
    [| intros [= <- <-]; split; [reflexivity | apply incl_refl] | discriminate].
  destruct (Z.leb (start_date fl) (end_date fl)); [discriminate |].
  intros [= <- <-]. split; [reflexivity |]. cbn.
  destruct replace; [apply clear_incl | apply incl_refl].
Qed.

Lemma ext_run_stores_nothing tf cid seed ent replace d d' n :
  Orchestrator.generate_hourly_performance_ext tf cid seed ent replace d = Some (d', n) ->
  n = 0%Z /\ incl (campaign_performance_extended d') (campaign_performance_extended d).
Proof.
  rewrite ext_run_eq.
  destruct (get_campaign_and_flight d cid) as [[fl |] |];
    [| intros [= <- <-]; split; [reflexivity | apply incl_refl] | discriminate].
  destruct (Z.leb (start_date fl) (end_date fl)); [discriminate |].
  intros [= <- <-]. split; [reflexivity |]. cbn.
  destruct replace; [apply clear_incl | apply incl_refl].
Qed.

(** C6.  The derived [ExtendedPerformanceMetrics.fill_rate] is
    [eligible_impressions / requests] when [requests > 0] and [0.0]
    otherwise, i.e. [safe_div(eligible_impressions, requests)] for every
    record with [requests >= 0].  Every record that
    [generate_hourly_performance_ext] builds has [requests >= 0], hence
    this [fill_rate].  No other fill rate is stored: a run of either
    orchestrator that returns writes no row (the basic generator's
    [fill_factor] never reaches a row object). *)
Theorem fill_rate_derived_and_stored :
  (forall m : Ext.metrics,
     Ext.fill_rate m = if (0 <? Ext.requests m)%Z
                       then inject_Z (Ext.eligible_impressions m) / inject_Z (Ext.requests m)
                       else 0) /\
  (forall m : Ext.metrics, (0 <= Ext.requests m)%Z ->
     Ext.fill_rate m == Ext.safe_div (inject_Z (Ext.eligible_impressions m))
                                     (inject_Z (Ext.requests m)) 0) /\
  (forall (tf : Z -> Z -> Z -> Q) (cid : Z) (seed : option Z) (ent : list Z) (fl : flight),
     Forall (fun r => (0 <= Ext.requests (fst r))%Z /\
                      Ext.fill_rate (fst r) == Ext.safe_div (inject_Z (Ext.eligible_impressions (fst r)))
                                                            (inject_Z (Ext.requests (fst r))) 0)
       (ext_rows_for tf cid seed ent fl)) /\
  (forall (tf : Z -> Z -> Z -> Q) (cid : Z) (seed : option Z) (ent : list Z) (replace : bool)
          (d d' : db) (n : Z),
     Orchestrator.generate_hourly_performance_raw tf cid seed ent replace d = Some (d', n) ->
     n = 0%Z /\ incl (campaign_performance d') (campaign_performance d)) /\
  (forall (tf : Z -> Z -> Z -> Q) (cid : Z) (seed : option Z) (ent : list Z) (replace : bool)
          (d d' : db) (n : Z),
     Orchestrator.generate_hourly_performance_ext tf cid seed ent replace d = Some (d', n) ->
     n = 0%Z /\ incl (campaign_performance_extended d') (campaign_performance_extended d)).
Proof.
  split; [exact fill_rate_cases |].
  split; [exact fill_rate_safe_div |].
  split; [| split; [exact raw_run_stores_nothing | exact ext_run_stores_nothing]].
  intros tf cid seed ent fl. apply ext_rows_for_Forall. intros s e h.
  eapply triple_conseq; [apply draw_metrics_facts |].
  intros m [Hnn _]. cbn [fst]. split; [exact (proj1 Hnn) |].
  apply fill_rate_safe_div, (proj1 Hnn).
Qed.

Lemma fill_rate_derived_and_stored_witness :
  Ext.fill_rate sample_metrics == Ext.safe_div 0 0 0 /\
  Ext.fill_rate (Ext.mkMetrics 1 0 10 10 8 8 8 8 8 8 8 8 8 8 0 0 0 0 8 1 0 0 0 None 1)
    == Ext.safe_div 8 10 0.
Proof.
  destruct fill_rate_derived_and_stored as [_ [H _]].
  split; [apply (H sample_metrics); vm_compute; discriminate |].
  apply (H (Ext.mkMetrics 1 0 10 10 8 8 8 8 8 8 8 8 8 8 0 0 0 0 8 1 0 0 0 None 1)); vm_compute; discriminate.
Defined.

End StoredRates.

(* ================================================================= *)
(** ** Runs of the orchestrators *)

Module RunLemmas.
Import Store.
Open Scope Z_scope.

Lemma gcf_missing (d : db) (cid : Z) :
  ~ In cid (campaigns d) \/ Forall (fun f => fl_campaign_id f <> cid)%Z (flights d) ->
  get_campaign_and_flight d cid = Some None.
Proof.
  intro H. unfold get_campaign_and_flight.
  destruct (existsb (Z.eqb cid) (campaigns d)) eqn:E; [| reflexivity].
  destruct H as [H | H].
  - exfalso. apply H. apply existsb_exists in E as [x [Hx Ex]]. apply Z.eqb_eq in Ex. now subst.
  - replace (filter (fun f => fl_campaign_id f =? cid) (flights d)) with (@nil flight); [reflexivity |].
    induction H as [| f t Hf _ IH]; cbn; [reflexivity |].
    replace (fl_campaign_id f =? cid) with false by (symmetry; now apply Z.eqb_neq). exact IH.
Qed.

Lemma gcf_several (d : db) (cid : Z) :
  In cid (campaigns d) ->
  (2 <= length (filter (fun f => Z.eqb (fl_campaign_id f) cid) (flights d)))%nat ->
  get_campaign_and_flight d cid = None.
Proof.
  intros Hc Hl. unfold get_campaign_and_flight.
  replace (existsb (Z.eqb cid) (campaigns d)) with true
    by (symmetry; apply existsb_exists; exists cid; split; [exact Hc | apply Z.eqb_refl]).
  destruct (filter _ (flights d)) as [| f1 [| f2 t]]; cbn in Hl; [lia | lia | reflexivity].
Qed.

End RunLemmas.

Module RunProps.
Import Store Regen StoreProps RunLemmas Fixtures.
Open Scope Z_scope.

(** X2.  The outcome of every run of [generate_hourly_performance_raw],
    whatever the seed, the entropy, the temporal factor and [replace]: it
    raises when the campaign has several flights; it returns 0 with the
    database unchanged when the campaign or its flight is missing; when
    the flight has at least one hour it raises at the first row object
    ([TypeError] in [create_performance_row]), so the transaction is
    rolled back; and when the flight ends before it starts it returns 0
    after deleting the campaign's rows if [replace]. *)
Theorem raw_run_outcome (tf : Z -> Z -> Z -> Q) (cid : Z) (seed : option Z) (ent : list Z)
  (replace : bool) (d : db) :
  Orchestrator.generate_hourly_performance_raw tf cid seed ent replace d =
  match get_campaign_and_flight d cid with
  | None => None
  | Some None => Some (d, 0)
  | Some (Some fl) =>
      if start_date fl <=? end_date fl then None
      else Some (set_perf d (if replace
                             then clear_existing_performance perf_key (campaign_performance d) cid
                             else campaign_performance d), 0)
  end.
Proof. exact (raw_run_eq tf cid seed ent replace d). Qed.

(** X5.  The same outcome for [generate_hourly_performance_ext]: when the
    flight has at least one hour, [flush()] raises [IntegrityError] since
    no row object sets the NOT NULL columns [daily_day_date],
    [weekly_start_day_date] and [monthly_start_day_date], so the
    transaction is rolled back. *)
Theorem ext_run_outcome (tf : Z -> Z -> Z -> Q) (cid : Z) (seed : option Z) (ent : list Z)
  (replace : bool) (d : db) :
  Orchestrator.generate_hourly_performance_ext tf cid seed ent replace d =
  match get_campaign_and_flight d cid with
  | None => None
  | Some None => Some (d, 0)
  | Some (Some fl) =>
      if start_date fl <=? end_date fl then None
      else Some (set_ext d (if replace
                            then clear_existing_performance ext_key (campaign_performance_extended d) cid
                            else campaign_performance_extended d), 0)
  end.
Proof. exact (ext_run_eq tf cid seed ent replace d). Qed.

(** X9.  When the campaign does not exist or has no flight, both
    orchestrators return 0 and leave the database unchanged, whatever the
    seed and [replace]. *)
Theorem runs_without_flight_noop (tf : Z -> Z -> Z -> Q) (cid : Z) (seed : option Z)
  (ent : list Z) (replace : bool) (d : db) :
  ~ In cid (campaigns d) \/ Forall (fun f => fl_campaign_id f <> cid) (flights d) ->
  Orchestrator.generate_hourly_performance_raw tf cid seed ent replace d = Some (d, 0) /\
  Orchestrator.generate_hourly_performance_ext tf cid seed ent replace d = Some (d, 0).
Proof.
  intro H. rewrite raw_as_regen, ext_as_regen. unfold regen.
  rewrite (gcf_missing d cid H). split; reflexivity.
Qed.

(** X10.  When the campaign has two or more flights, both orchestrators
    raise ([scalar_one_or_none] finds several rows), whatever the seed and
    [replace]. *)
Theorem runs_with_several_flights_raise (tf : Z -> Z -> Z -> Q) (cid : Z) (seed : option Z)
  (ent : list Z) (replace : bool) (d : db) :
  In cid (campaigns d) ->
  (2 <= length (filter (fun f => Z.eqb (fl_campaign_id f) cid) (flights d)))%nat ->
  Orchestrator.generate_hourly_performance_raw tf cid seed ent replace d = None /\
  Orchestrator.generate_hourly_performance_ext tf cid seed ent replace d = None.
Proof.
  intros Hc Hl. rewrite raw_as_regen, ext_as_regen. unfold regen.
  rewrite (gcf_several d cid Hc Hl). split; reflexivity.
Qed.

(** Witness of X9: a database with no campaign. *)
Lemma runs_without_flight_noop_witness :
  Orchestrator.generate_hourly_performance_raw unit_factor 1 None [] true empty_db = Some (empty_db, 0) /\
  Orchestrator.generate_hourly_performance_ext unit_factor 1 None [] true empty_db = Some (empty_db, 0).
Proof. apply runs_without_flight_noop; left; intros []. Defined.

(** Witness of X10: campaign 1 with its one-day flight listed twice. *)
Lemma runs_with_several_flights_raise_witness :
  Orchestrator.generate_hourly_performance_raw unit_factor 1 None [] true two_flight_db = None /\
  Orchestrator.generate_hourly_performance_ext unit_factor 1 None [] true two_flight_db = None.
Proof. apply runs_with_several_flights_raise; [left; reflexivity | cbn; lia]. Defined.

End RunProps.

(* ================================================================= *)
(** ** Range of [calculate_temporal_factor] *)

Module TemporalBounds.
Import Temporal TemporalProps.
Open Scope R_scope.

Lemma hourly_boost_le (dt : Z) : hourly_boost dt <= 1.45.
Proof.
  unfold hourly_boost.
  destruct ((9 <=? Time.hour dt) && (Time.hour dt <=? 17))%Z; [| lra].
  set (x := (IZR (Time.hour dt) - 13) / 2.5).
  assert (H : exp (-0.5 * x * x) <= 1).
  { rewrite <- exp_0. destruct (Req_dec (-0.5 * x * x) 0) as [E | E]; [rewrite E; lra |].
    left. apply exp_increasing. nra. }
  lra.
Qed.

Lemma dow_factor_le (dt : Z) : dow_factor dt <= 1.
Proof.
  unfold dow_factor.
  destruct (Time.weekday dt =? 4)%Z; [lra |].
  destruct (Time.weekday dt =? 5)%Z; [lra |].
  destruct (Time.weekday dt =? 6)%Z; lra.
Qed.

Lemma ramp_factor_le (s c e : Z) : ramp_factor s c e <= 1.15 * 1.03.
Proof.
  unfold ramp_factor.
  set (x := (Rmin 1 (Rmax 0 (hours_diff s c / Rmax 1 (hours_diff s e))) - 0.5) * 6).
  set (w := sin (2 * PI * hours_diff s c / 168)).
  pose proof (exp_pos (- x)) as Hx.
  assert (Hs : 1 / (1 + exp (- x)) <= 1).
  { unfold Rdiv. rewrite Rmult_1_l. rewrite <- Rinv_1. apply Rinv_le_contravar; lra. }
  assert (Hs0 : 0 < 1 / (1 + exp (- x))) by (apply Rdiv_lt_0_compat; lra).
  pose proof (SIN_bound (2 * PI * hours_diff s c / 168)) as Hw. fold w in Hw.
  apply Rmult_le_compat; lra.
Qed.

Lemma annual_factor_le (dt : Z) : annual_factor dt <= 1.
Proof.
  unfold annual_factor.
  pose proof (COS_bound (2 * PI * IZR (Time.yday dt - 1) / 365)). lra.
Qed.

(** X11.  [calculate_temporal_factor] lies between 0.58 and 1.72 for every
    triple of datetimes.  The sub-factors lie in these ranges: hour boost
    [[1, 1.45]], day of week [[0.88, 1]], ramp [[0.85 * 0.97, 1.15 * 1.03]]
    and annual [[0.8, 1]]. *)
Theorem temporal_factor_range (s c e : Z) :
  (1 <= hourly_boost c <= 1.45) /\ (0.88 <= dow_factor c <= 1) /\
  (0.85 * 0.97 <= ramp_factor s c e <= 1.15 * 1.03) /\ (0.8 <= annual_factor c <= 1) /\
  0.58 <= calculate_temporal_factor s c e <= 1.72.
Proof.
  pose proof (hourly_boost_ge_1 c). pose proof (dow_factor_ge c).
  pose proof (ramp_factor_ge s c e). pose proof (annual_factor_ge c).
  pose proof (hourly_boost_le c). pose proof (dow_factor_le c).
  pose proof (ramp_factor_le s c e). pose proof (annual_factor_le c).
  split; [split; assumption |]. split; [split; assumption |].
  split; [split; assumption |]. split; [split; assumption |].
  unfold calculate_temporal_factor; cbv zeta.
  split.
  - apply Rle_trans with (1 * 0.88 * (0.85 * 0.97) * 0.8); [lra |].
    apply Rmult_le_compat; [lra | lra | | lra].
    apply Rmult_le_compat; [lra | lra | | lra].
    apply Rmult_le_compat; lra.
  - apply Rle_trans with (1.45 * 1 * (1.15 * 1.03) * 1); [| lra].
    apply Rmult_le_compat; [| lra | | lra].
    + apply Rmult_le_pos; [apply Rmult_le_pos |]; lra.
    + apply Rmult_le_compat; [| lra | | lra].
      * apply Rmult_le_pos; lra.
      * apply Rmult_le_compat; lra.
Qed.
End TemporalBounds.

(* ================================================================= *)
(** ** [_hours_between] *)

Module HoursBetween.
Import Time.
Open Scope Z_scope.

(** X12.  [_hours_between(start, end)] yields exactly the instants
    [start + k hours] up to [end], in strictly increasing order.  An
    instant [h] is yielded iff [start <= h <= end] and [h - start] is a
    whole number of hours. *)
Theorem hours_between_spec (s e h : Z) :
  (In h (hours_between s e) <-> s <= h <= e /\ (h - s) mod USEC_PER_HOUR = 0) /\
  Sorted Z.lt (hours_between s e).
Proof.
  unfold hours_between, hours_count. split.
  - rewrite in_map_iff. split.
    + intros [k [<- Hk]]. apply in_seq in Hk.
      destruct (s <=? e) eqn:E; [| cbn in Hk; lia].
      apply Z.leb_le in E. unfold USEC_PER_HOUR in *.
      assert (Hq : Z.of_nat k <= (e - s) / 3600000000) by lia.
      pose proof (Z.mul_div_le (e - s) 3600000000 ltac:(lia)).
      split; [nia |]. rewrite Z.add_simpl_l, Z.mod_mul by lia. reflexivity.
    + intros [[H1 H2] H3]. exists (Z.to_nat ((h - s) / USEC_PER_HOUR)). unfold USEC_PER_HOUR in *.
      pose proof (Z.div_mod (h - s) 3600000000 ltac:(lia)) as Hd. rewrite H3, Z.add_0_r in Hd.
      split.
      * rewrite Z2Nat.id by (apply Z.div_pos; lia). lia.
      * apply in_seq. replace (s <=? e) with true by (symmetry; apply Z.leb_le; lia).
        split; [lia |]. cbn [Nat.add].
        assert ((h - s) / 3600000000 <= (e - s) / 3600000000) by (apply Z.div_le_mono; lia).
        assert (0 <= (h - s) / 3600000000) by (apply Z.div_pos; lia).
        lia.
  - generalize (match s <=? e with true => Z.to_nat ((e - s) / USEC_PER_HOUR + 1) | false => O end) as n.
    intro n. generalize 0%nat as j. induction n as [| n IH]; intro j; cbn [seq map]; constructor.
    + apply IH.
    + destruct n; cbn; constructor. unfold USEC_PER_HOUR. lia.
Qed.
End HoursBetween.


(* ================================================================= *)
(** ** The evening tests of [performance.py] *)

Module EveningTests.
Import String.
Import AudienceMix.

(** X14.  The evening tests [hour >= 18 or hour <= 22] of
    [generate_hourly_performance_raw] (line 293) and of [_audience_mix] hold
    for every hour.  So the audibility multiplier of the basic orchestrator
    is always 1.05.  [_audience_mix] returns the same composition at every
    hour, with the evening/weekend device shares; its weekday-daytime
    values are never used. *)
Theorem evening_tests_always_true (h : Z) (rng rng' : MT.state) (dt dt' imp imp' : Z) :
  Basic.audible_mult h = 1.05%Q /\
  audience_mix rng dt imp = audience_mix rng' dt' imp' /\
  hd_error (audience_mix rng dt imp) =
    Some ("device"%string, normalize [("CTV"%string, 0.45%Q); ("DESKTOP"%string, 0.20%Q);
                                      ("MOBILE"%string, 0.35%Q)]).
Proof.
  assert (E : forall x : Z, ((18 <=? x) || (x <=? 22))%Z = true).
  { intro x. destruct (Z.le_gt_cases x 22); [rewrite orb_true_iff; right; now apply Z.leb_le |].
    rewrite orb_true_iff; left; apply Z.leb_le; lia. }
  split; [unfold Basic.audible_mult; now rewrite E |].
  unfold audience_mix. rewrite !E, !orb_true_r. split; reflexivity.
Qed.
End EveningTests.
